(** * DReCa data loaders: [CorpusQA] and [CorpusSC] (data.py)

    A shallow embedding of the two dataset adapters of [data.py].  The
    adapters are glue around three external collaborators (a pretrained
    tokenizer, the SQuAD processor of the transformers library, and the
    dataframe reader); these are parameters of the development, bundled
    in the record [Env].  The file system is an explicit finite map
    from paths to file contents, threaded through a small state and
    exception monad, so that cache hits, cache misses and the files a
    construction leaves behind can be stated. *)

From stdpp Require Import gmap strings list fin_maps.
From Stdlib Require Import ZArith Ascii.

Local Open Scope string_scope.
Local Open Scope Z_scope.

(** ** Python exceptions and results *)

Inductive Exn :=
| KeyError (k : string)
| IndexError
| TypeError
| ValueError
| FileNotFoundError (p : string)
| UnpicklingError (p : string)
| ParserError (p : string)
| OSError (m : string).

Inductive Res (A : Type) :=
| Ok (a : A)
| Raise (e : Exn).
Arguments Ok {A} a.
Arguments Raise {A} e.

Definition res_bind {A B} (r : Res A) (k : A → Res B) : Res B :=
  match r with
  | Ok a => k a
  | Raise e => Raise e
  end.

Notation "'try' x := r 'in' k" := (res_bind r (λ x, k))
  (at level 10, x pattern, r at level 100, k at level 200).

(** [[f(x) for x in l]]: the first failing element raises. *)
Fixpoint res_map {A B} (f : A → Res B) (l : list A) : Res (list B) :=
  match l with
  | [] => Ok []
  | x :: l' => try y := f x in try ys := res_map f l' in Ok (y :: ys)
  end.

(** ** Python sequences and strings *)

(** [l[i]] for a Python integer [i]: negative indices count from the end. *)
Definition py_index {A} (l : list A) (i : Z) : Res A :=
  let n := Z.of_nat (length l) in
  let j := if i <? 0 then i + n else i in
  if (0 <=? j) && (j <? n)
  then match l !! Z.to_nat j with
       | Some x => Ok x
       | None => Raise IndexError
       end
  else Raise IndexError.

(** [s.split(sep)] for a one-character separator: never the empty list. *)
Fixpoint split (sep : ascii) (s : string) : list string :=
  match s with
  | EmptyString => [EmptyString]
  | String c s' =>
      if Ascii.eqb c sep then EmptyString :: split sep s'
      else match split sep s' with
           | [] => [String c EmptyString]
           | w :: ws => String c w :: ws
           end
  end.

(** [sep.join(l)] *)
Fixpoint join (sep : string) (l : list string) : string :=
  match l with
  | [] => ""
  | [x] => x
  | x :: l' => x +:+ sep +:+ join sep l'
  end.

(** [s.startswith("/")] and [s.endswith("/")] *)
Definition startswith_sep (s : string) : bool :=
  match s with
  | String c _ => Ascii.eqb c "/"
  | EmptyString => false
  end.

Fixpoint endswith_sep (s : string) : bool :=
  match s with
  | EmptyString => false
  | String c EmptyString => Ascii.eqb c "/"
  | String _ s' => endswith_sep s'
  end.

(** [os.path.join(a, b)] (posixpath) *)
Definition os_path_join (a b : string) : string :=
  if startswith_sep b then b
  else if bool_decide (a = "") || endswith_sep a then a +:+ b
  else a +:+ "/" +:+ b.

(** ** Tensors

    Integer tensors of rank 0, 1 and 2, which is all the loaders build.
    Rows of a rank-2 tensor are not forced to have one length here; the
    tensors assembled below are rectangular by construction. *)

Inductive Tensor :=
| T0 (z : Z)
| T1 (v : list Z)
| T2 (m : list (list Z)).

(** [t.shape[0]], [t.size(0)] *)
Definition size0 (t : Tensor) : Res nat :=
  match t with
  | T0 _ => Raise IndexError
  | T1 v => Ok (length v)
  | T2 m => Ok (length m)
  end.

(** [t[i]] *)
Definition tensor_index (t : Tensor) (i : Z) : Res Tensor :=
  match t with
  | T0 _ => Raise IndexError
  | T1 v => try z := py_index v i in Ok (T0 z)
  | T2 m => try r := py_index m i in Ok (T1 r)
  end.

(** [t[:]] *)
Definition tensor_slice_all (t : Tensor) : Res Tensor :=
  match t with
  | T0 _ => Raise IndexError
  | _ => Ok t
  end.

(** [torch.tensor(rows)] for a list of integer lists: the empty list
    gives the empty rank-1 tensor. *)
Definition torch_tensor2 (rows : list (list Z)) : Tensor :=
  match rows with
  | [] => T1 []
  | _ => T2 rows
  end.

(** A tensor that is a sequence of [n] numbers. *)
Definition is_seq (n : nat) (t : Tensor) : Prop :=
  ∃ v, t = T1 v ∧ length v = n.

Definition is_scalar (t : Tensor) : Prop := ∃ z, t = T0 z.

(** ** Records of the external libraries *)

(** One row of the dataframe with columns premise, hypothesis, label. *)
Record Row := {
  premise : string;
  hypothesis : string;
  label : string;
}.

(** [SquadExample] *)
Record Example := {
  qas_id : string;
  question_text : string;
  context_text : string;
  answer_text : option string;
  start_position_character : option Z;
}.

(** [SquadFeatures], the fields the tensor dataset is built from *)
Record Feature := {
  f_input_ids : list Z;
  f_attention_mask : list Z;
  f_token_type_ids : list Z;
  f_cls_index : Z;
  f_p_mask : list Z;
  f_start_position : Z;
  f_end_position : Z;
  f_is_impossible : bool;
}.

(** The objects [CorpusQA] keeps and saves: a list of features, a list
    of examples, or a [TensorDataset] (its tuple of tensors). *)
Inductive QAObj :=
| OFeatures (fs : list Feature)
| OExamples (es : list Example)
| ODataset (ts : list Tensor).

(** What indexing such an object gives. *)
Inductive Item :=
| ITensor (t : Tensor)
| IFeature (f : Feature)
| IExample (e : Example).

(** ** File system *)

(** A file is a text file, a pickled dictionary of tensors or a
    dictionary written by [torch.save].  Serialisation is taken to be
    lossless: a file holds the object that was written. *)
Inductive FileObj :=
| Text (s : string)
| Pickle (d : gmap string Tensor)
| TorchFile (d : gmap string QAObj).

Abbreviation FS := (gmap string FileObj).

(** State and exception monad over the file system.  A raised exception
    keeps the file system as it was when it was raised. *)
Definition M (A : Type) : Type := FS → Res A * FS.

Definition ret {A} (a : A) : M A := λ fs, (Ok a, fs).
Definition raise {A} (e : Exn) : M A := λ fs, (Raise e, fs).
Definition lift {A} (r : Res A) : M A := λ fs, (r, fs).
Definition bind {A B} (m : M A) (k : A → M B) : M B :=
  λ fs, match m fs with
        | (Ok a, fs') => k a fs'
        | (Raise e, fs') => (Raise e, fs')
        end.

Notation "'do' x ← m ; k" := (bind m (λ x, k))
  (at level 10, x pattern, m at level 100, k at level 200).

(** [os.path.exists(p)] *)
Definition os_path_exists (p : string) : M bool :=
  λ fs, (Ok (bool_decide (is_Some (fs !! p))), fs).

(** [open(p).read()] of a text file; a binary file is not decodable. *)
Definition read_text (p : string) : M string :=
  λ fs, match fs !! p with
        | None => (Raise (FileNotFoundError p), fs)
        | Some (Text s) => (Ok s, fs)
        | Some _ => (Raise (ParserError p), fs)
        end.

(** [pickle.load(open(p, "rb"))] *)
Definition pickle_load (p : string) : M (gmap string Tensor) :=
  λ fs, match fs !! p with
        | None => (Raise (FileNotFoundError p), fs)
        | Some (Pickle d) => (Ok d, fs)
        | Some _ => (Raise (UnpicklingError p), fs)
        end.

(** [pickle.dump(d, open(p, "wb"), protocol=pickle.HIGHEST_PROTOCOL)] *)
Definition pickle_dump (d : gmap string Tensor) (p : string) : M unit :=
  λ fs, (Ok tt, <[p := Pickle d]> fs).

(** [torch.load(p)] *)
Definition torch_load (p : string) : M (gmap string QAObj) :=
  λ fs, match fs !! p with
        | None => (Raise (FileNotFoundError p), fs)
        | Some (TorchFile d) => (Ok d, fs)
        | Some _ => (Raise (UnpicklingError p), fs)
        end.

(** [torch.save(d, p)] *)
Definition torch_save (d : gmap string QAObj) (p : string) : M unit :=
  λ fs, (Ok tt, <[p := TorchFile d]> fs).

(** The file system with the file at [p] replaced by [f], or removed. *)
Definition alter_file (p : string) (f : option FileObj) (fs : FS) : FS :=
  match f with
  | Some f => <[p := f]> fs
  | None => delete p fs
  end.

(** [d[k]] on a dictionary with string keys *)
Definition dict_get {V} (d : gmap string V) (k : string) : Res V :=
  match d !! k with
  | Some v => Ok v
  | None => Raise (KeyError k)
  end.

(** ** External collaborators *)

Inductive Side := PadRight | PadLeft.

(** The encoding of one sentence pair: token ids and segment ids. *)
Record Encoding := {
  enc_ids : list Z;
  enc_type_ids : list Z;
}.

(** A loaded tokenizer.  [tok_encode max_length a b] is the encoding of
    the pair [(a, b)] with special tokens added and [truncation=True]
    applied for [max_length]; padding is done by [tokenizer_call].
    [tok_fast] tells a fast (Rust-backed) tokenizer from a slow one: the
    two raise different exceptions on an empty batch. *)
Record Tokenizer := {
  tok_class : string;
  tok_fast : bool;
  tok_encode : nat → string → string → Encoding;
  tok_pad_id : Z;
  tok_pad_type_id : Z;
  tok_padding_side : Side;
}.

(** A tokenizer truncates to the requested length and gives one segment
    id per token. *)
Definition tok_truncates (tok : Tokenizer) (max_length : nat) : Prop :=
  ∀ a b, (length (enc_ids (tok_encode tok max_length a b)) ≤ max_length)%nat ∧
         length (enc_type_ids (tok_encode tok max_length a b)) =
         length (enc_ids (tok_encode tok max_length a b)).

(** The environment of the loaders:
    - [from_pretrained model_name use_fast local_files_only] is
      [AutoTokenizer.from_pretrained] (with [do_lower_case=False]);
    - [read_csv s] is the dataframe [pd.read_csv] builds from the text
      [s] with [sep="\t", header=None] and the three column names;
    - [create_examples evaluate s] is what [SquadV1Processor] extracts
      from the JSON text [s], by [get_dev_examples] when [evaluate] and
      by [get_train_examples] otherwise;
    - [convert_example] is the sliding-window conversion of one example
      into its features. *)
Record Env := {
  from_pretrained : string → bool → bool → Res Tokenizer;
  read_csv : string → Res (list Row);
  create_examples : bool → string → Res (list Example);
  convert_example : Tokenizer → nat → nat → nat → bool → Example → list Feature;
}.

(** Every feature of the conversion has the three token sequences at the
    requested length (the conversion pads to [max_seq_length]). *)
Definition converts_to_length (E : Env) (tok : Tokenizer) (n : nat) : Prop :=
  ∀ ds mq tr ex f, f ∈ convert_example E tok n ds mq tr ex →
    length (f_input_ids f) = n ∧ length (f_attention_mask f) = n ∧
    length (f_token_type_ids f) = n.

Definition pad (side : Side) (x : Z) (L : nat) (l : list Z) : list Z :=
  match side with
  | PadRight => l ++ replicate (L - length l) x
  | PadLeft => replicate (L - length l) x ++ l
  end.

(** What the tokenizer returns for a batch. *)
Record BatchEncoding := {
  be_input_ids : Tensor;
  be_attention_mask : Tensor;
  be_token_type_ids : Tensor;
}.

(** [tokenizer(text, text_pair, add_special_tokens=True,
    max_length=max_length, truncation=True, padding=True,
    return_attention_mask=True, return_token_type_ids=True,
    return_tensors="pt")]: every pair is encoded and truncated to
    [max_length]; [padding=True] pads to the longest encoding of the
    batch.  Lists of different lengths raise [ValueError]; an empty
    batch raises too, [IndexError] in a fast tokenizer and [ValueError]
    in a slow one. *)
Definition tokenizer_call (tok : Tokenizer) (text text_pair : list string)
    (max_length : nat) : Res BatchEncoding :=
  if bool_decide (length text = length text_pair) then
    match text with
    | [] => Raise (if tok_fast tok then IndexError else ValueError)
    | _ :: _ =>
        let encs := zip_with (tok_encode tok max_length) text text_pair in
        let L := max_list ((λ e, length (enc_ids e)) <$> encs) in
        let side := tok_padding_side tok in
        Ok {| be_input_ids :=
                torch_tensor2 ((λ e, pad side (tok_pad_id tok) L (enc_ids e)) <$> encs);
              be_attention_mask :=
                torch_tensor2
                  ((λ e, pad side 0 L (replicate (length (enc_ids e)) 1)) <$> encs);
              be_token_type_ids :=
                torch_tensor2
                  ((λ e, pad side (tok_pad_type_id tok) L (enc_type_ids e)) <$> encs) |}
    end
  else Raise ValueError.

(** [squad_convert_examples_to_features(examples, tokenizer,
    max_seq_length, doc_stride, max_query_length, is_training,
    return_dataset="pt", threads=1)]: the features of all examples in
    order, and the [TensorDataset] over them.  In training mode the
    columns are input ids, attention masks, token type ids, start
    positions, end positions, cls index, p mask, is impossible; in
    evaluation mode they are input ids, attention masks, token type ids,
    feature index, cls index, p mask. *)
Definition squad_convert_examples_to_features (E : Env) (examples : list Example)
    (tokenizer : Tokenizer) (max_seq_length doc_stride max_query_length : nat)
    (is_training : bool) : list Feature * list Tensor :=
  let features :=
    mjoin (convert_example E tokenizer max_seq_length doc_stride max_query_length
             is_training <$> examples) in
  let all_input_ids := torch_tensor2 (f_input_ids <$> features) in
  let all_attention_masks := torch_tensor2 (f_attention_mask <$> features) in
  let all_token_type_ids := torch_tensor2 (f_token_type_ids <$> features) in
  let all_cls_index := T1 (f_cls_index <$> features) in
  let all_p_mask := torch_tensor2 (f_p_mask <$> features) in
  let all_is_impossible :=
    T1 ((λ f, if f_is_impossible f then 1 else 0) <$> features) in
  if is_training then
    let all_start_positions := T1 (f_start_position <$> features) in
    let all_end_positions := T1 (f_end_position <$> features) in
    (features,
     [all_input_ids; all_attention_masks; all_token_type_ids;
      all_start_positions; all_end_positions; all_cls_index; all_p_mask;
      all_is_impossible])
  else
    let all_feature_index := T1 (Z.of_nat <$> seq 0 (length features)) in
    (features,
     [all_input_ids; all_attention_masks; all_token_type_ids;
      all_feature_index; all_cls_index; all_p_mask]).

(** ** Operations on the objects [CorpusQA] holds *)

(** [len(o)]; for a [TensorDataset] it is [tensors[0].size(0)]. *)
Definition obj_len (o : QAObj) : Res nat :=
  match o with
  | OFeatures l => Ok (length l)
  | OExamples l => Ok (length l)
  | ODataset ts => try t := py_index ts 0 in size0 t
  end.

(** [o[:][i]]; a [TensorDataset] slices every tensor of its tuple. *)
Definition obj_slice_col (o : QAObj) (i : Z) : Res Item :=
  match o with
  | OFeatures l => try f := py_index l i in Ok (IFeature f)
  | OExamples l => try e := py_index l i in Ok (IExample e)
  | ODataset ts =>
      try row := res_map tensor_slice_all ts in
      try t := py_index row i in Ok (ITensor t)
  end.

(** [o[id][k]]; a [TensorDataset] indexes every tensor of its tuple, and
    features and examples are not subscriptable. *)
Definition obj_item_col (o : QAObj) (id k : Z) : Res Item :=
  match o with
  | OFeatures l => try _ := py_index l id in Raise TypeError
  | OExamples l => try _ := py_index l id in Raise TypeError
  | ODataset ts =>
      try row := res_map (λ t, tensor_index t id) ts in
      try t := py_index row k in Ok (ITensor t)
  end.

(** ** class CorpusQA *)

Module CorpusQA.

Record t := {
  doc_stride : nat;
  max_query_len : nat;
  max_seq_len : nat;
  model_name : string;
  tokenizer : Tokenizer;
  dataset : QAObj;
  examples : QAObj;
  features : QAObj;
  data : gmap string Item;
}.

(** The path of the cache file, as [preprocess] computes it. *)
Definition cached_features_file (tok : Tokenizer) (file : string) : string :=
  let file := split "/" file in
  let filename := List.last file "" in
  let data_dir := join "/" (removelast file) in
  os_path_join data_dir ("cached_" +:+ tok_class tok +:+ "_" +:+ filename).

(** [processor.get_dev_examples(data_dir, filename)] and
    [processor.get_train_examples(data_dir, filename)]: both open
    [os.path.join(data_dir, filename)]. *)
Definition get_examples (E : Env) (evaluate : bool) (data_dir filename : string)
    : M (list Example) :=
  do s ← read_text (os_path_join data_dir filename);
  lift (create_examples E evaluate s).

Definition preprocess (E : Env) (tok : Tokenizer)
    (max_seq_len doc_stride max_query_len : nat)
    (file : string) (evaluate : bool) : M (QAObj * QAObj * QAObj) :=
  let file := split "/" file in
  let filename := List.last file "" in
  let data_dir := join "/" (removelast file) in
  let cached_features_file :=
    os_path_join data_dir ("cached_" +:+ tok_class tok +:+ "_" +:+ filename) in
  do cached ← os_path_exists cached_features_file;
  if cached : bool then
    do features_and_dataset ← torch_load cached_features_file;
    do features ← lift (dict_get features_and_dataset "features");
    do dataset ← lift (dict_get features_and_dataset "dataset");
    do examples ← lift (dict_get features_and_dataset "examples");
    ret (dataset, examples, features)
  else
    do examples ← get_examples E evaluate data_dir filename;
    let '(features, dataset) :=
      squad_convert_examples_to_features E examples tok max_seq_len doc_stride
        max_query_len (negb evaluate) in
    do _ ← torch_save {[ "features" := OFeatures features;
                         "dataset" := ODataset dataset;
                         "examples" := OExamples examples ]}
                      cached_features_file;
    ret (ODataset dataset, OExamples examples, OFeatures features).

(** The dictionary comprehension of [__init__]. *)
Definition columns (dataset : QAObj) : Res (gmap string Item) :=
  try c0 := obj_slice_col dataset 0 in
  try c1 := obj_slice_col dataset 1 in
  try c2 := obj_slice_col dataset 2 in
  try c3 := obj_slice_col dataset 3 in
  try c4 := obj_slice_col dataset 4 in
  Ok {[ "input_ids" := c0; "attention_mask" := c1; "token_type_ids" := c2;
        "answer_start" := c3; "answer_end" := c4 ]}.

Definition init (E : Env) (path : string) (evaluate : bool)
    (model_name : string) (local_files_only : bool) : M t :=
  let doc_stride := 128%nat in
  let max_query_len := 64%nat in
  let max_seq_len := 384%nat in
  do tokenizer ← lift (from_pretrained E model_name false local_files_only);
  do (dataset, examples, features) ←
    preprocess E tokenizer max_seq_len doc_stride max_query_len path evaluate;
  do data ← lift (columns dataset);
  ret {| doc_stride := doc_stride; max_query_len := max_query_len;
         max_seq_len := max_seq_len; model_name := model_name;
         tokenizer := tokenizer; dataset := dataset; examples := examples;
         features := features; data := data |}.

Definition len (self : t) : Res nat := obj_len (dataset self).

Definition getitem (self : t) (id : Z) : Res (gmap string Item) :=
  try c0 := obj_item_col (dataset self) id 0 in
  try c1 := obj_item_col (dataset self) id 1 in
  try c2 := obj_item_col (dataset self) id 2 in
  try c3 := obj_item_col (dataset self) id 3 in
  try c4 := obj_item_col (dataset self) id 4 in
  Ok {[ "input_ids" := c0; "attention_mask" := c1; "token_type_ids" := c2;
        "answer_start" := c3; "answer_end" := c4 ]}.

End CorpusQA.

(** ** class CorpusSC *)

Module CorpusSC.

Record t := {
  max_sequence_length : nat;
  tokenizer : Tokenizer;
  label_dict : gmap string Z;
  data : gmap string Tensor;
}.

Definition cached_data_file (tok : Tokenizer) (path : string) : string :=
  path +:+ "_" +:+ tok_class tok +:+ ".pickle".

Definition preprocess (E : Env) (tok : Tokenizer) (max_sequence_length : nat)
    (label_dict : gmap string Z) (path file : string)
    : M (gmap string Tensor) :=
  do s ← read_text path;
  do df ← lift (read_csv E s);
  let premise_list := premise <$> df in
  let hypothesis_list := hypothesis <$> df in
  let label_list := label <$> df in
  do ids ← lift (tokenizer_call tok premise_list hypothesis_list max_sequence_length);
  do labels ← lift (res_map (dict_get label_dict) label_list);
  let dataset : gmap string Tensor :=
    {[ "input_ids" := be_input_ids ids;
       "token_type_ids" := be_attention_mask ids;
       "attention_mask" := be_token_type_ids ids;
       "label" := T1 labels ]} in
  ret dataset.

Definition init (E : Env) (path file : string) (model_name : string)
    (local_files_only : bool) : M t :=
  let max_sequence_length := 128%nat in
  do tokenizer ← lift (from_pretrained E model_name true local_files_only);
  let label_dict : gmap string Z :=
    {[ "contradiction" := 0; "entailment" := 1; "neutral" := 2 ]} in
  let cached_data_file := path +:+ "_" +:+ tok_class tokenizer +:+ ".pickle" in
  do cached ← os_path_exists cached_data_file;
  if cached : bool then
    do data ← pickle_load cached_data_file;
    ret {| max_sequence_length := max_sequence_length; tokenizer := tokenizer;
           label_dict := label_dict; data := data |}
  else
    do data ← preprocess E tokenizer max_sequence_length label_dict path file;
    do _ ← pickle_dump data cached_data_file;
    ret {| max_sequence_length := max_sequence_length; tokenizer := tokenizer;
           label_dict := label_dict; data := data |}.

Definition len (self : t) : Res nat :=
  try t := dict_get (data self) "input_ids" in size0 t.

Definition getitem (self : t) (id : Z) : Res (gmap string Tensor) :=
  try a := (try t := dict_get (data self) "input_ids" in tensor_index t id) in
  try b := (try t := dict_get (data self) "token_type_ids" in tensor_index t id) in
  try c := (try t := dict_get (data self) "attention_mask" in tensor_index t id) in
  try d := (try t := dict_get (data self) "label" in tensor_index t id) in
  Ok {[ "input_ids" := a; "token_type_ids" := b; "attention_mask" := c;
        "label" := d ]}.

End CorpusSC.

(** ** A small concrete environment

    A character-level tokenizer in the style of XLM-R ([<s> a </s></s> b
    </s>], segment ids all 0, padding id 1 on the right), a line-based
    reader of tab-separated text and a line-based reader of question
    answering examples.  It is used to run the loaders on concrete
    files. *)

Module Sample.

Definition tab : string := String "009"%char "".
Definition nl : string := String "010"%char "".

Fixpoint codes (s : string) : list Z :=
  match s with
  | EmptyString => []
  | String c s' => Z.of_N (N_of_ascii c) :: codes s'
  end.

Definition encode (max_length : nat) (a b : string) : Encoding :=
  let ids := take max_length ([0] ++ codes a ++ [2; 2] ++ codes b ++ [2]) in
  {| enc_ids := ids; enc_type_ids := replicate (length ids) 0 |}.

Definition tok (use_fast : bool) : Tokenizer :=
  {| tok_class := if use_fast then "XLMRobertaTokenizerFast" else "XLMRobertaTokenizer";
     tok_fast := use_fast;
     tok_encode := encode;
     tok_pad_id := 1;
     tok_pad_type_id := 0;
     tok_padding_side := PadRight |}.

Definition lines (s : string) : list string :=
  filter (λ l, l ≠ "") (split "010"%char s).

Definition parse_row (l : string) : Res Row :=
  match split "009"%char l with
  | [p; h; c] => Ok {| premise := p; hypothesis := h; label := c |}
  | _ => Raise (ParserError l)
  end.

Definition parse_example (evaluate : bool) (l : string) : Res Example :=
  match split "009"%char l with
  | [i; q; c; a] =>
      Ok {| qas_id := i; question_text := q; context_text := c;
            answer_text := if evaluate then None else Some a;
            start_position_character := if evaluate then None else Some 0 |}
  | _ => Raise (ParserError l)
  end.

(** One window per example: the pair padded to [max_seq_length]. *)
Definition convert (tk : Tokenizer) (max_seq_length doc_stride max_query_length : nat)
    (is_training : bool) (ex : Example) : list Feature :=
  let e := tok_encode tk max_seq_length (question_text ex) (context_text ex) in
  let n := length (enc_ids e) in
  [ {| f_input_ids := pad PadRight (tok_pad_id tk) max_seq_length (enc_ids e);
       f_attention_mask := pad PadRight 0 max_seq_length (replicate n 1);
       f_token_type_ids := pad PadRight (tok_pad_type_id tk) max_seq_length (enc_type_ids e);
       f_cls_index := 0;
       f_p_mask := replicate max_seq_length 0;
       f_start_position := if is_training then 1 else 0;
       f_end_position := if is_training then 1 else 0;
       f_is_impossible := false |} ].

Definition env : Env :=
  {| from_pretrained := λ _ use_fast _, Ok (tok use_fast);
     read_csv := λ s, res_map parse_row (lines s);
     create_examples := λ evaluate s, res_map (parse_example evaluate) (lines s);
     convert_example := convert |}.

(** The row of the specification's scenario, and a second one. *)
Definition nli_text : string :=
  "A man is eating." +:+ tab +:+ "A man is eating food." +:+ tab +:+ "entailment" +:+ nl +:+
  "A dog runs." +:+ tab +:+ "A cat sleeps." +:+ tab +:+ "contradiction" +:+ nl.

Definition nli_bad_text : string :=
  "A man is eating." +:+ tab +:+ "A man is eating food." +:+ tab +:+ "entailment" +:+ nl +:+
  "A dog runs." +:+ tab +:+ "A cat sleeps." +:+ tab +:+ "unknown" +:+ nl.

Definition qa_text : string :=
  "q1" +:+ tab +:+ "Who eats?" +:+ tab +:+ "A man is eating." +:+ tab +:+ "A man" +:+ nl.

Definition nli_rows : list Row :=
  [ {| premise := "A man is eating."; hypothesis := "A man is eating food.";
       label := "entailment" |};
    {| premise := "A dog runs."; hypothesis := "A cat sleeps.";
       label := "contradiction" |} ].

Definition nli_bad_rows : list Row :=
  [ {| premise := "A man is eating."; hypothesis := "A man is eating food.";
       label := "entailment" |};
    {| premise := "A dog runs."; hypothesis := "A cat sleeps.";
       label := "unknown" |} ].

Definition qa_examples (evaluate : bool) : list Example :=
  [ {| qas_id := "q1"; question_text := "Who eats?";
       context_text := "A man is eating.";
       answer_text := if evaluate then None else Some "A man";
       start_position_character := if evaluate then None else Some 0 |} ].

Definition nli_fs : FS := {[ "data/xnli.tsv" := Text nli_text ]}.
Definition nli_bad_fs : FS := {[ "data/xnli.tsv" := Text nli_bad_text ]}.
Definition nli_empty_fs : FS := {[ "data/xnli.tsv" := Text "" ]}.
Definition qa_fs : FS := {[ "data/train.json" := Text qa_text ]}.
Definition qa_empty_fs : FS := {[ "data/train.json" := Text "" ]}.
Definition qa_root_fs : FS :=
  {[ "/train.json" := Text qa_text; "train.json" := Text qa_text ]}.

End Sample.

(** ** Derived definitions used in the statements *)

(** The dictionary of label names, as [__init__] sets it. *)
Definition sc_labels : gmap string Z :=
  {[ "contradiction" := 0; "entailment" := 1; "neutral" := 2 ]}.

(** The dataset [preprocess] assembles from a batch encoding. *)
Definition sc_dataset (ids : BatchEncoding) (labels : list Z) : gmap string Tensor :=
  {[ "input_ids" := be_input_ids ids;
     "token_type_ids" := be_attention_mask ids;
     "attention_mask" := be_token_type_ids ids;
     "label" := T1 labels ]}.

Definition sc_object (tok : Tokenizer) (d : gmap string Tensor) : CorpusSC.t :=
  {| CorpusSC.max_sequence_length := 128; CorpusSC.tokenizer := tok;
     CorpusSC.label_dict := sc_labels; CorpusSC.data := d |}.

(** The encodings of the rows of a file, and their common padded width. *)
Definition sc_encodings (tok : Tokenizer) (n : nat) (rows : list Row) : list Encoding :=
  (λ r, tok_encode tok n (premise r) (hypothesis r)) <$> rows.

Definition sc_width (tok : Tokenizer) (n : nat) (rows : list Row) : nat :=
  max_list ((λ e, length (enc_ids e)) <$> sc_encodings tok n rows).

(** The item of one row: field by field what [__getitem__] returns. *)
Definition sc_item (tok : Tokenizer) (n : nat) (rows : list Row) (r : Row)
    : gmap string Tensor :=
  let e := tok_encode tok n (premise r) (hypothesis r) in
  let L := sc_width tok n rows in
  let side := tok_padding_side tok in
  {[ "input_ids" := T1 (pad side (tok_pad_id tok) L (enc_ids e));
     "token_type_ids" := T1 (pad side 0 L (replicate (length (enc_ids e)) 1));
     "attention_mask" := T1 (pad side (tok_pad_type_id tok) L (enc_type_ids e));
     "label" := T0 (default 0 (sc_labels !! label r)) ]}.

(** There is no cache file, or it holds what [preprocess] computes from
    the source file as it is now. *)
Definition sc_cache_agrees (E : Env) (tok : Tokenizer) (path file : string)
    (fs : FS) : Prop :=
  match fs !! CorpusSC.cached_data_file tok path with
  | None => True
  | Some f =>
      ∃ d, f = Pickle d ∧
           CorpusSC.preprocess E tok 128 sc_labels path file fs = (Ok d, fs)
  end.

(** The dataset of a well-labelled file. *)
Definition sc_data (tok : Tokenizer) (rows : list Row) : gmap string Tensor :=
  match tokenizer_call tok (premise <$> rows) (hypothesis <$> rows) 128 with
  | Ok ids => sc_dataset ids ((λ r, default 0 (sc_labels !! label r)) <$> rows)
  | Raise _ => ∅
  end.

(** The three token fields of an item are sequences of length [n]. *)
Definition sc_item_has_width (n : nat) (item : gmap string Tensor) : Prop :=
  ∃ a b c, item !! "input_ids" = Some a ∧ item !! "token_type_ids" = Some b ∧
           item !! "attention_mask" = Some c ∧
           is_seq n a ∧ is_seq n b ∧ is_seq n c.

(** The file the SQuAD processor opens for a source path. *)
Definition qa_source (path : string) : string :=
  let file := split "/" path in
  os_path_join (join "/" (removelast file)) (List.last file "").

(** Features and tensors of the conversion with the constants of
    [CorpusQA.__init__]. *)
Definition qa_features (E : Env) (tok : Tokenizer) (evaluate : bool)
    (exs : list Example) : list Feature :=
  (squad_convert_examples_to_features E exs tok 384 128 64 (negb evaluate)).1.

Definition qa_tensors (E : Env) (tok : Tokenizer) (evaluate : bool)
    (exs : list Example) : list Tensor :=
  (squad_convert_examples_to_features E exs tok 384 128 64 (negb evaluate)).2.

(** The dictionary [preprocess] saves. *)
Definition qa_bundle (features : list Feature) (dataset : list Tensor)
    (examples : list Example) : gmap string QAObj :=
  {[ "features" := OFeatures features; "dataset" := ODataset dataset;
     "examples" := OExamples examples ]}.

Definition qa_object (tok : Tokenizer) (model_name : string)
    (dataset examples features : QAObj) (data : gmap string Item) : CorpusQA.t :=
  {| CorpusQA.doc_stride := 128; CorpusQA.max_query_len := 64;
     CorpusQA.max_seq_len := 384; CorpusQA.model_name := model_name;
     CorpusQA.tokenizer := tok; CorpusQA.dataset := dataset;
     CorpusQA.examples := examples; CorpusQA.features := features;
     CorpusQA.data := data |}.

(** [i] normalised as a Python index into a sequence of length [n]. *)
Definition py_norm (n : nat) (i : Z) : Z := if i <? 0 then i + Z.of_nat n else i.

(** The item of feature [f] at index [id] of a dataset of [n] features:
    columns 3 and 4 are the start and end positions in training mode,
    and the feature index and the cls index in evaluation mode. *)
Definition qa_item (evaluate : bool) (n : nat) (id : Z) (f : Feature)
    : gmap string Item :=
  {[ "input_ids" := ITensor (T1 (f_input_ids f));
     "attention_mask" := ITensor (T1 (f_attention_mask f));
     "token_type_ids" := ITensor (T1 (f_token_type_ids f));
     "answer_start" :=
       ITensor (T0 (if evaluate then py_norm n id else f_start_position f));
     "answer_end" :=
       ITensor (T0 (if evaluate then f_cls_index f else f_end_position f)) ]}.

(** The column dictionary of [__init__] over the features [F]. *)
Definition qa_columns (evaluate : bool) (F : list Feature) : gmap string Item :=
  {[ "input_ids" := ITensor (torch_tensor2 (f_input_ids <$> F));
     "attention_mask" := ITensor (torch_tensor2 (f_attention_mask <$> F));
     "token_type_ids" := ITensor (torch_tensor2 (f_token_type_ids <$> F));
     "answer_start" :=
       ITensor (T1 (if evaluate then Z.of_nat <$> seq 0 (length F)
                    else f_start_position <$> F));
     "answer_end" :=
       ITensor (T1 (if evaluate then f_cls_index <$> F else f_end_position <$> F)) ]}.

(** There is no cache file, or it holds what an earlier construction
    (with either value of the flag) saved for the source file as it is
    now. *)
Definition qa_cache_agrees (E : Env) (tok : Tokenizer) (path : string) (fs : FS) : Prop :=
  match fs !! CorpusQA.cached_features_file tok path with
  | None => True
  | Some f =>
      ∃ ev s exs,
        fs !! qa_source path = Some (Text s) ∧
        create_examples E ev s = Ok exs ∧
        f = TorchFile (qa_bundle (qa_features E tok ev exs) (qa_tensors E tok ev exs) exs)
  end.

Definition qa_keys : gset string :=
  {[ "input_ids"; "attention_mask"; "token_type_ids"; "answer_start"; "answer_end" ]}.

(** The item has the five keys and every value is a sequence of [n]
    numbers. *)
Definition qa_item_all_sequences (n : nat) (item : gmap string Item) : Prop :=
  dom item = qa_keys ∧
  ∀ k v, item !! k = Some v → ∃ t, v = ITensor t ∧ is_seq n t.

(** [s] contains a slash. *)
Fixpoint has_sep (s : string) : bool :=
  match s with
  | EmptyString => false
  | String c s' => Ascii.eqb c "/" || has_sep s'
  end.

Definition qa_bundle_keys : gset string := {[ "features"; "dataset"; "examples" ]}.
Definition sc_keys : gset string :=
  {[ "input_ids"; "token_type_ids"; "attention_mask"; "label" ]}.

(** * Properties *)

(** ** Sequences, results and tensors *)

(** Case analysis on the integer comparisons of the goal. *)
Ltac zcmp :=
  repeat match goal with
         | |- context [?a <? ?b] => destruct (Z.ltb_spec a b)
         | |- context [?a <=? ?b] => destruct (Z.leb_spec a b)
         end; simpl.

Lemma py_index_nil {A} (i : Z) : py_index ([] : list A) i = Raise IndexError.
Proof. unfold py_index. simpl. zcmp; done || lia. Qed.

Lemma py_index_nat {A} (l : list A) (i : nat) (x : A) :
  l !! i = Some x → py_index l (Z.of_nat i) = Ok x.
Proof.
  intros Hx. pose proof (lookup_lt_Some _ _ _ Hx) as Hlt.
  unfold py_index. zcmp; try lia.
  by rewrite Nat2Z.id, Hx.
Qed.

Lemma py_index_Ok {A} (l : list A) (i : Z) (x : A) :
  py_index l i = Ok x → x ∈ l.
Proof.
  unfold py_index. destruct (_ && _); [|done].
  destruct (l !! _) eqn:Hl; [|done].
  intros [= <-]. by eapply list_elem_of_lookup_2.
Qed.

Lemma py_index_in_range {A} (l : list A) (i : Z) :
  - Z.of_nat (length l) ≤ i < Z.of_nat (length l) →
  ∃ x, py_index l i = Ok x ∧ x ∈ l.
Proof.
  intros Hi. unfold py_index.
  set (j := if i <? 0 then i + Z.of_nat (length l) else i).
  assert (0 ≤ j < Z.of_nat (length l)) as Hj.
  { unfold j. zcmp; lia. }
  clearbody j. zcmp; try lia.
  destruct (l !! Z.to_nat j) as [x|] eqn:Hl.
  - exists x. split; [done|]. by eapply list_elem_of_lookup_2.
  - apply lookup_ge_None in Hl. lia.
Qed.

Lemma py_index_Ok_range {A} (l : list A) (i : Z) (x : A) :
  py_index l i = Ok x → - Z.of_nat (length l) ≤ i < Z.of_nat (length l).
Proof. unfold py_index. zcmp; done || lia. Qed.

Lemma py_index_fmap {A B} (f : A → B) (l : list A) (i : Z) :
  py_index (f <$> l) i = try x := py_index l i in Ok (f x).
Proof.
  unfold py_index. rewrite length_fmap.
  destruct (_ && _); [|done].
  rewrite list_lookup_fmap. by destruct (l !! _).
Qed.

Lemma res_map_total {A B} (f : A → Res B) (g : A → B) (l : list A) :
  Forall (λ x, f x = Ok (g x)) l → res_map f l = Ok (g <$> l).
Proof.
  induction 1 as [|x l Hx _ IH]; [done|].
  simpl. by rewrite Hx, IH.
Qed.

Lemma res_map_Ok_length {A B} (f : A → Res B) (l : list A) (l' : list B) :
  res_map f l = Ok l' → length l' = length l.
Proof.
  revert l'. induction l as [|x l IH]; intros l'; simpl.
  - by intros [= <-].
  - destruct (f x); [|done]. simpl.
    destruct (res_map f l) eqn:Hm; [|done]. simpl.
    intros [= <-]. simpl. f_equal. by apply IH.
Qed.

Lemma res_map_Ok_lookup {A B} (f : A → Res B) (l : list A) (l' : list B) i x :
  res_map f l = Ok l' → l !! i = Some x → ∃ y, f x = Ok y ∧ l' !! i = Some y.
Proof.
  revert l' i. induction l as [|a l IH]; intros l' i; simpl; [done|].
  destruct (f a) as [b|] eqn:Hfa; [|done]. simpl.
  destruct (res_map f l) as [bs|] eqn:Hm; [|done]. simpl.
  intros [= <-]. destruct i as [|i]; simpl.
  - intros [= <-]. eauto.
  - intros Hi. by apply (IH bs i).
Qed.

(** A dictionary comprehension over keys of which one is missing raises
    [KeyError] for a missing key of the list. *)
Lemma res_map_dict_get_missing {V} (d : gmap string V) (l : list string) :
  Exists (λ k, d !! k = None) l →
  ∃ k, res_map (dict_get d) l = Raise (KeyError k) ∧ k ∈ l ∧ d !! k = None.
Proof.
  induction 1 as [k l Hk|k l _ IH].
  - exists k. simpl. unfold dict_get. rewrite Hk. simpl.
    split; [done|]. split; [apply list_elem_of_here|done].
  - simpl. unfold dict_get at 1. destruct (d !! k) as [v|] eqn:Hk; simpl.
    + destruct IH as (k' & -> & Hin & Hnone). exists k'. simpl.
      split; [done|]. split; [by apply list_elem_of_further|done].
    + exists k. split; [done|]. split; [apply list_elem_of_here|done].
Qed.

Lemma size0_torch_tensor2 (rows : list (list Z)) :
  size0 (torch_tensor2 rows) = Ok (length rows).
Proof. by destruct rows. Qed.

Lemma tensor_index_torch_tensor2 (rows : list (list Z)) (i : Z) :
  tensor_index (torch_tensor2 rows) i = try r := py_index rows i in Ok (T1 r).
Proof.
  destruct rows; [|done]. simpl. by rewrite !py_index_nil.
Qed.

Lemma tensor_slice_all_torch_tensor2 (rows : list (list Z)) :
  tensor_slice_all (torch_tensor2 rows) = Ok (torch_tensor2 rows).
Proof. by destruct rows. Qed.

Lemma length_pad (side : Side) (x : Z) (L : nat) (l : list Z) :
  (length l ≤ L)%nat → length (pad side x L l) = L.
Proof.
  intros HL. destruct side; simpl; rewrite length_app, length_replicate; lia.
Qed.

Lemma max_list_elem_of_le (n : nat) (ns : list nat) :
  n ∈ ns → (n ≤ max_list ns)%nat.
Proof.
  induction 1 as [|n m ns _ IH]; simpl; lia.
Qed.

Lemma max_list_bound (b : nat) (ns : list nat) :
  Forall (λ n, (n ≤ b)%nat) ns → (max_list ns ≤ b)%nat.
Proof.
  induction 1; simpl; lia.
Qed.

(** ** CorpusSC: the two branches of the constructor *)

Section CorpusSC_branches.
Context (E : Env) (tok : Tokenizer) (path file model_name : string)
        (local_files_only : bool) (fs : FS).
Hypothesis Htok : from_pretrained E model_name true local_files_only = Ok tok.

Lemma sc_tokenizer_call_rows (rows : list Row) (n : nat) :
  rows ≠ [] →
  ∃ ids, tokenizer_call tok (premise <$> rows) (hypothesis <$> rows) n = Ok ids.
Proof.
  intros Hne. unfold tokenizer_call.
  rewrite bool_decide_eq_true_2 by (by rewrite !length_fmap).
  destruct rows; [done|]. csimpl. eauto.
Qed.

Lemma sc_tokenizer_call_empty (n : nat) :
  tokenizer_call tok [] [] n = Raise (if tok_fast tok then IndexError else ValueError).
Proof. done. Qed.

Lemma sc_preprocess_fs (n : nat) (ld : gmap string Z) :
  (CorpusSC.preprocess E tok n ld path file fs).2 = fs.
Proof.
  unfold CorpusSC.preprocess, bind, read_text, lift, ret.
  destruct (fs !! path) as [[s| |]|]; try done.
  destruct (read_csv E s) as [df|]; [|done].
  destruct (tokenizer_call _ _ _ _); [|done].
  by destruct (res_map _ _).
Qed.

Lemma sc_preprocess_Ok (n : nat) (ld : gmap string Z) s rows ids labels :
  fs !! path = Some (Text s) →
  read_csv E s = Ok rows →
  tokenizer_call tok (premise <$> rows) (hypothesis <$> rows) n = Ok ids →
  res_map (dict_get ld) (label <$> rows) = Ok labels →
  CorpusSC.preprocess E tok n ld path file fs = (Ok (sc_dataset ids labels), fs).
Proof.
  intros Hf Hr Hi Hl.
  unfold CorpusSC.preprocess, bind, read_text, lift, ret.
  by rewrite Hf, Hr, Hi, Hl.
Qed.

Lemma sc_preprocess_KeyError (n : nat) (ld : gmap string Z) s rows k :
  fs !! path = Some (Text s) →
  read_csv E s = Ok rows →
  res_map (dict_get ld) (label <$> rows) = Raise (KeyError k) →
  CorpusSC.preprocess E tok n ld path file fs = (Raise (KeyError k), fs).
Proof.
  intros Hf Hr Hl. destruct (sc_tokenizer_call_rows rows n) as [ids Hi].
  { by intros ->. }
  unfold CorpusSC.preprocess, bind, read_text, lift, ret.
  by rewrite Hf, Hr, Hi, Hl.
Qed.

Lemma sc_init_miss :
  fs !! CorpusSC.cached_data_file tok path = None →
  CorpusSC.init E path file model_name local_files_only fs =
  match CorpusSC.preprocess E tok 128 sc_labels path file fs with
  | (Ok d, fs') =>
      (Ok (sc_object tok d), <[CorpusSC.cached_data_file tok path := Pickle d]> fs')
  | (Raise e, fs') => (Raise e, fs')
  end.
Proof.
  intros Hc. unfold CorpusSC.init, bind, lift, os_path_exists.
  rewrite Htok. fold (CorpusSC.cached_data_file tok path). rewrite Hc.
  rewrite bool_decide_eq_false_2 by (by intros [? ?]).
  fold sc_labels.
  by destruct (CorpusSC.preprocess _ _ _ _ _ _ _) as [[d|e] fs'].
Qed.

Lemma sc_init_hit (d : gmap string Tensor) :
  fs !! CorpusSC.cached_data_file tok path = Some (Pickle d) →
  CorpusSC.init E path file model_name local_files_only fs =
  (Ok (sc_object tok d), fs).
Proof.
  intros Hc. unfold CorpusSC.init, bind, lift, os_path_exists, pickle_load.
  rewrite Htok. fold (CorpusSC.cached_data_file tok path). rewrite Hc.
  rewrite bool_decide_eq_true_2; [|by eexists].
  by rewrite Hc.
Qed.

End CorpusSC_branches.

(** ** CorpusSC: what a construction holds *)

Lemma zip_with_rows {A} (f : string → string → A) (rows : list Row) :
  zip_with f (premise <$> rows) (hypothesis <$> rows) =
  (λ r, f (premise r) (hypothesis r)) <$> rows.
Proof. induction rows as [|r rows IH]; csimpl; [done|]. by rewrite IH. Qed.

Lemma tokenizer_call_rows (tok : Tokenizer) (n : nat) (rows : list Row) :
  rows ≠ [] →
  tokenizer_call tok (premise <$> rows) (hypothesis <$> rows) n =
  Ok {| be_input_ids :=
          torch_tensor2 ((λ e, pad (tok_padding_side tok) (tok_pad_id tok)
                                  (sc_width tok n rows) (enc_ids e))
                         <$> sc_encodings tok n rows);
        be_attention_mask :=
          torch_tensor2 ((λ e, pad (tok_padding_side tok) 0 (sc_width tok n rows)
                                  (replicate (length (enc_ids e)) 1))
                         <$> sc_encodings tok n rows);
        be_token_type_ids :=
          torch_tensor2 ((λ e, pad (tok_padding_side tok) (tok_pad_type_id tok)
                                  (sc_width tok n rows) (enc_type_ids e))
                         <$> sc_encodings tok n rows) |}.
Proof.
  intros Hne. unfold tokenizer_call.
  rewrite bool_decide_eq_true_2 by (by rewrite !length_fmap).
  rewrite zip_with_rows. by destruct rows.
Qed.

Lemma sc_labels_total (rows : list Row) :
  Forall (λ r, is_Some (sc_labels !! label r)) rows →
  res_map (dict_get sc_labels) (label <$> rows) =
  Ok ((λ r, default 0 (sc_labels !! label r)) <$> rows).
Proof.
  intros Hall.
  rewrite (res_map_total _ (λ k, default 0 (sc_labels !! k))).
  - by rewrite <-list_fmap_compose.
  - apply Forall_fmap. eapply Forall_impl; [exact Hall|].
    intros r [z Hz]. simpl. unfold dict_get. by rewrite Hz.
Qed.

Lemma sc_len_data (tok : Tokenizer) (rows : list Row) :
  rows ≠ [] →
  CorpusSC.len (sc_object tok (sc_data tok rows)) = Ok (length rows).
Proof.
  intros Hne. unfold sc_data. rewrite tokenizer_call_rows by done.
  unfold CorpusSC.len, sc_object, sc_dataset, dict_get. simpl.
  rewrite lookup_insert_eq. simpl.
  rewrite size0_torch_tensor2. unfold sc_encodings. by rewrite !length_fmap.
Qed.

Lemma sc_getitem_data (tok : Tokenizer) (rows : list Row) (id : Z) :
  rows ≠ [] →
  CorpusSC.getitem (sc_object tok (sc_data tok rows)) id =
  try r := py_index rows id in Ok (sc_item tok 128 rows r).
Proof.
  intros Hne. unfold sc_data. rewrite tokenizer_call_rows by done.
  unfold CorpusSC.getitem, sc_object, sc_dataset, dict_get. simpl.
  rewrite lookup_insert_eq.
  rewrite lookup_insert_ne, lookup_insert_eq by done.
  do 2 rewrite lookup_insert_ne by done. rewrite lookup_insert_eq.
  do 3 rewrite lookup_insert_ne by done. rewrite lookup_singleton_eq.
  simpl. rewrite !tensor_index_torch_tensor2.
  unfold sc_encodings. rewrite <-!list_fmap_compose, !py_index_fmap.
  by destruct (py_index rows id) as [r|e].
Qed.

Section CorpusSC_valid.
Context (E : Env) (tok : Tokenizer) (path file model_name : string)
        (local_files_only : bool) (fs : FS) (s : string) (rows : list Row).
Hypothesis Htok : from_pretrained E model_name true local_files_only = Ok tok.
Hypothesis Hfile : fs !! path = Some (Text s).
Hypothesis Hrows : read_csv E s = Ok rows.
Hypothesis Hlabels : Forall (λ r, is_Some (sc_labels !! label r)) rows.
Hypothesis Hne : rows ≠ [].

Lemma sc_preprocess_valid :
  CorpusSC.preprocess E tok 128 sc_labels path file fs =
  (Ok (sc_data tok rows), fs).
Proof.
  unfold sc_data. destruct (sc_tokenizer_call_rows tok rows 128 Hne) as [ids Hids].
  rewrite Hids.
  apply (sc_preprocess_Ok E tok path file fs 128 sc_labels s rows);
    auto using sc_labels_total.
Qed.

(** With no cache, or one that agrees with the file, the constructor
    succeeds and holds the dataset of the file. *)
Lemma sc_init_valid :
  sc_cache_agrees E tok path file fs →
  ∃ fs', CorpusSC.init E path file model_name local_files_only fs =
         (Ok (sc_object tok (sc_data tok rows)), fs').
Proof.
  unfold sc_cache_agrees.
  destruct (fs !! CorpusSC.cached_data_file tok path) as [f|] eqn:Hc.
  - intros (d & -> & Hd). rewrite sc_preprocess_valid in Hd.
    injection Hd as <-. exists fs. by apply sc_init_hit.
  - intros _. eexists. rewrite (sc_init_miss E tok _ _ _ _ _ Htok Hc).
    by rewrite sc_preprocess_valid.
Qed.

End CorpusSC_valid.

Lemma sc_cache_agrees_None (E : Env) (tok : Tokenizer) (path file : string) (fs : FS) :
  fs !! CorpusSC.cached_data_file tok path = None →
  sc_cache_agrees E tok path file fs.
Proof. intros Hc. unfold sc_cache_agrees. by rewrite Hc. Qed.

Lemma sc_labels_Some (k : string) (z : Z) :
  sc_labels !! k = Some z ↔
  (k = "contradiction" ∧ z = 0) ∨ (k = "entailment" ∧ z = 1) ∨
  (k = "neutral" ∧ z = 2).
Proof.
  unfold sc_labels.
  rewrite !lookup_insert_Some, lookup_singleton_Some. naive_solver.
Qed.

Lemma sc_labels_known (k : string) :
  k ∈ ["contradiction"; "entailment"; "neutral"] → is_Some (sc_labels !! k).
Proof.
  rewrite !elem_of_cons, elem_of_nil.
  intros [->|[->|[->|[]]]]; eexists; apply sc_labels_Some; eauto.
Qed.

Lemma sc_labels_unknown (k : string) :
  k ∉ ["contradiction"; "entailment"; "neutral"] → sc_labels !! k = None.
Proof.
  intros Hk. destruct (sc_labels !! k) as [z|] eqn:Hz; [|done].
  exfalso. apply Hk. apply sc_labels_Some in Hz.
  rewrite !elem_of_cons. naive_solver.
Qed.

Lemma sc_item_lookups (tok : Tokenizer) (n : nat) (rows : list Row) (r : Row) :
  let e := tok_encode tok n (premise r) (hypothesis r) in
  let L := sc_width tok n rows in
  let side := tok_padding_side tok in
  sc_item tok n rows r !! "input_ids" = Some (T1 (pad side (tok_pad_id tok) L (enc_ids e))) ∧
  sc_item tok n rows r !! "token_type_ids" =
    Some (T1 (pad side 0 L (replicate (length (enc_ids e)) 1))) ∧
  sc_item tok n rows r !! "attention_mask" =
    Some (T1 (pad side (tok_pad_type_id tok) L (enc_type_ids e))) ∧
  sc_item tok n rows r !! "label" = Some (T0 (default 0 (sc_labels !! label r))).
Proof. by intros e L side. Qed.

(** ** CorpusSC: the claims *)

(** C1.  [CorpusSC.preprocess] swaps two field names: whenever the
    tokenizer returns a batch encoding for the rows of the file (and the
    labels are all known), the dataset [preprocess] assembles, which
    the constructor keeps and pickles on a cache miss, has the
    tokenizer's attention mask under ["token_type_ids"] and the
    tokenizer's token type ids under ["attention_mask"]. *)
Theorem sc_preprocess_swaps_mask_and_type_ids
    (E : Env) (tok : Tokenizer) (path file model_name : string)
    (local_files_only : bool) (fs : FS) (s : string) (rows : list Row)
    (ids : BatchEncoding) :
  from_pretrained E model_name true local_files_only = Ok tok →
  fs !! path = Some (Text s) →
  read_csv E s = Ok rows →
  tokenizer_call tok (premise <$> rows) (hypothesis <$> rows) 128 = Ok ids →
  Forall (λ r, is_Some (sc_labels !! label r)) rows →
  fs !! CorpusSC.cached_data_file tok path = None →
  ∃ d c,
    CorpusSC.preprocess E tok 128 sc_labels path file fs = (Ok d, fs) ∧
    d !! "token_type_ids" = Some (be_attention_mask ids) ∧
    d !! "attention_mask" = Some (be_token_type_ids ids) ∧
    d !! "input_ids" = Some (be_input_ids ids) ∧
    CorpusSC.init E path file model_name local_files_only fs =
      (Ok c, <[CorpusSC.cached_data_file tok path := Pickle d]> fs) ∧
    CorpusSC.data c = d.
Proof.
  intros Htok Hfile Hrows Hids Hlabels Hcache.
  pose proof (sc_preprocess_Ok E tok path file fs 128 sc_labels s rows ids _
                Hfile Hrows Hids (sc_labels_total rows Hlabels)) as Hpre.
  eexists _, (sc_object tok _).
  split; [exact Hpre|]. unfold sc_dataset.
  split; [done|]. split; [done|]. split; [done|].
  split; [|done].
  rewrite (sc_init_miss E tok _ _ _ _ _ Htok Hcache). by rewrite Hpre.
Qed.

(** C2, as the specification states it, fails for N = 0: the sample
    reader gives no row for the empty file, every label (there is none)
    is known, and the constructor raises in the tokenizer call instead
    of building a dataset of length 0. *)
Lemma sc_no_rows_no_length :
  Sample.nli_empty_fs !! "data/xnli.tsv" = Some (Text "") ∧
  read_csv Sample.env "" = Ok [] ∧
  ¬ ∃ c fs',
      CorpusSC.init Sample.env "data/xnli.tsv" "xnli.tsv" "xlm-roberta-base" false
        Sample.nli_empty_fs = (Ok c, fs') ∧
      CorpusSC.len c = Ok (length ([] : list Row)).
Proof.
  split; [vm_compute; reflexivity|]. split; [vm_compute; reflexivity|].
  intros (c & fs' & Hinit & _).
  rewrite (sc_init_miss Sample.env (Sample.tok true) _ _ _ _ _ eq_refl) in Hinit
    by (vm_compute; reflexivity).
  vm_compute in Hinit. discriminate.
Qed.

(** C2, amended.  For a file of N >= 1 rows whose label texts are all
    among contradiction, entailment and neutral, the constructed dataset
    has length N, and the label of row i is the image of its label text
    under contradiction -> 0, entailment -> 1, neutral -> 2. *)
Theorem sc_length_and_labels
    (E : Env) (tok : Tokenizer) (path file model_name : string)
    (local_files_only : bool) (fs : FS) (s : string) (rows : list Row) :
  from_pretrained E model_name true local_files_only = Ok tok →
  fs !! path = Some (Text s) →
  read_csv E s = Ok rows →
  rows ≠ [] →
  Forall (λ r, label r ∈ ["contradiction"; "entailment"; "neutral"]) rows →
  sc_cache_agrees E tok path file fs →
  ∃ c fs',
    CorpusSC.init E path file model_name local_files_only fs = (Ok c, fs') ∧
    CorpusSC.len c = Ok (length rows) ∧
    ∀ (i : nat) (r : Row), rows !! i = Some r →
      ∃ item z,
        CorpusSC.getitem c (Z.of_nat i) = Ok item ∧
        item !! "label" = Some (T0 z) ∧
        z ∈ [0; 1; 2] ∧
        ((label r = "contradiction" ∧ z = 0) ∨ (label r = "entailment" ∧ z = 1) ∨
         (label r = "neutral" ∧ z = 2)).
Proof.
  intros Htok Hfile Hrows Hne Hlabels Hcache.
  assert (Forall (λ r, is_Some (sc_labels !! label r)) rows) as Hknown.
  { eapply Forall_impl; [exact Hlabels|]. intros r. apply sc_labels_known. }
  destruct (sc_init_valid E tok path file model_name local_files_only fs s rows
              Htok Hfile Hrows Hknown Hne Hcache) as [fs' Hinit].
  exists (sc_object tok (sc_data tok rows)), fs'.
  split; [done|]. split; [by apply sc_len_data|].
  intros i r Hr. rewrite sc_getitem_data, (py_index_nat _ _ _ Hr) by done. simpl.
  rewrite Forall_forall in Hknown.
  destruct (Hknown r) as [z Hz]; [by eapply list_elem_of_lookup_2|].
  exists (sc_item tok 128 rows r), z. split; [done|].
  split; [by rewrite (proj2 (proj2 (proj2 (sc_item_lookups tok 128 rows r)))), Hz|].
  apply sc_labels_Some in Hz. split; [|done].
  rewrite !elem_of_cons. naive_solver.
Qed.

(** C3.  With no cache file, a file with a row whose label text is not
    one of the three known labels makes the constructor raise [KeyError]
    for such a label; the file system is left as it was, so no cache
    file has been written. *)
Theorem sc_unknown_label_raises
    (E : Env) (tok : Tokenizer) (path file model_name : string)
    (local_files_only : bool) (fs : FS) (s : string) (rows : list Row) :
  from_pretrained E model_name true local_files_only = Ok tok →
  fs !! path = Some (Text s) →
  read_csv E s = Ok rows →
  fs !! CorpusSC.cached_data_file tok path = None →
  Exists (λ r, label r ∉ ["contradiction"; "entailment"; "neutral"]) rows →
  ∃ k fs',
    CorpusSC.init E path file model_name local_files_only fs = (Raise (KeyError k), fs') ∧
    k ∈ (label <$> rows) ∧
    (k ∉ ["contradiction"; "entailment"; "neutral"]) ∧
    fs' = fs ∧
    fs' !! CorpusSC.cached_data_file tok path = None.
Proof.
  intros Htok Hfile Hrows Hcache Hbad.
  destruct (res_map_dict_get_missing sc_labels (label <$> rows)) as (k & Hk & Hin & Hnone).
  { apply Exists_fmap. eapply Exists_impl; [exact Hbad|].
    intros r. apply sc_labels_unknown. }
  exists k, fs. rewrite (sc_init_miss E tok _ _ _ _ _ Htok Hcache).
  rewrite (sc_preprocess_KeyError E tok path file fs 128 sc_labels s rows k Hfile Hrows Hk).
  split; [done|]. split; [done|]. split; [|done].
  intros Hk3. apply sc_labels_known in Hk3. rewrite Hnone in Hk3. by destruct Hk3.
Qed.

Lemma max_list_attained (ns : list nat) : ns ≠ [] → max_list ns ∈ ns.
Proof.
  induction ns as [|n ns IH]; [done|]. intros _. simpl.
  destruct ns as [|m ns].
  - simpl. rewrite Nat.max_0_r. apply list_elem_of_here.
  - destruct (Nat.max_spec n (max_list (m :: ns))) as [[_ ->]|[_ ->]].
    + apply list_elem_of_further. by apply IH.
    + apply list_elem_of_here.
Qed.

Lemma sc_encoding_le_width (tok : Tokenizer) (n : nat) (rows : list Row) (r : Row) :
  r ∈ rows →
  (length (enc_ids (tok_encode tok n (premise r) (hypothesis r))) ≤ sc_width tok n rows)%nat.
Proof.
  intros Hr. apply max_list_elem_of_le. unfold sc_encodings.
  rewrite <-list_fmap_compose.
  by apply (list_elem_of_fmap_2
              (λ r, length (enc_ids (tok_encode tok n (premise r) (hypothesis r))))).
Qed.

Lemma sc_width_le (tok : Tokenizer) (n : nat) (rows : list Row) :
  tok_truncates tok n → (sc_width tok n rows ≤ n)%nat.
Proof.
  intros Htr. apply max_list_bound. unfold sc_encodings.
  rewrite <-list_fmap_compose. apply Forall_fmap, Forall_forall.
  intros r _. simpl. apply Htr.
Qed.

Lemma sc_item_width (tok : Tokenizer) (n : nat) (rows : list Row) (r : Row) :
  tok_truncates tok n → r ∈ rows →
  sc_item_has_width (sc_width tok n rows) (sc_item tok n rows r).
Proof.
  intros Htr Hr. pose proof (sc_encoding_le_width tok n rows r Hr) as Hle.
  destruct (sc_item_lookups tok n rows r) as (Ha & Hb & Hc & _).
  do 3 eexists. split; [exact Ha|]. split; [exact Hb|]. split; [exact Hc|].
  split; [|split]; eexists; (split; [done|]); apply length_pad.
  - done.
  - by rewrite length_replicate.
  - by rewrite (proj2 (Htr _ _)).
Qed.

(** C5, as the specification states it, fails: the two rows of the
    sample file are padded to the longer of the two (41 tokens), not to
    128. *)
Lemma sc_items_not_128_wide :
  ∃ c fs' item,
    CorpusSC.init Sample.env "data/xnli.tsv" "xnli.tsv" "xlm-roberta-base" false
      Sample.nli_fs = (Ok c, fs') ∧
    CorpusSC.getitem c 0 = Ok item ∧
    ¬ sc_item_has_width 128 item.
Proof.
  destruct (sc_init_valid Sample.env (Sample.tok true) "data/xnli.tsv" "xnli.tsv"
              "xlm-roberta-base" false Sample.nli_fs Sample.nli_text Sample.nli_rows)
    as [fs' Hinit].
  { reflexivity. }
  { vm_compute. reflexivity. }
  { vm_compute. reflexivity. }
  { compute_done. }
  { discriminate. }
  { apply sc_cache_agrees_None. vm_compute. reflexivity. }
  pose (r0 := {| premise := "A man is eating."; hypothesis := "A man is eating food.";
                 label := "entailment" |}).
  exists (sc_object (Sample.tok true) (sc_data (Sample.tok true) Sample.nli_rows)), fs',
    (sc_item (Sample.tok true) 128 Sample.nli_rows r0).
  split; [exact Hinit|]. split.
  { rewrite sc_getitem_data by discriminate.
    pose proof (py_index_nat Sample.nli_rows 0 r0 eq_refl) as Hr.
    change (Z.of_nat 0) with 0 in Hr. by rewrite Hr. }
  intros (a & b & c & Ha & _ & _ & (v & -> & Hv) & _).
  rewrite (proj1 (sc_item_lookups (Sample.tok true) 128 Sample.nli_rows r0)) in Ha.
  injection Ha as <-. vm_compute in Hv. discriminate.
Qed.

(** C5, amended.  With a tokenizer that truncates to 128, every item of
    a dataset constructed from a file with at least one row has its
    three token fields at one common length L, the length of the
    longest encoded pair of the file after truncation; L is at most
    128, and shorter encodings are padded to L. *)
Theorem sc_items_padded_to_longest
    (E : Env) (tok : Tokenizer) (path file model_name : string)
    (local_files_only : bool) (fs : FS) (s : string) (rows : list Row) :
  from_pretrained E model_name true local_files_only = Ok tok →
  fs !! path = Some (Text s) →
  read_csv E s = Ok rows →
  rows ≠ [] →
  Forall (λ r, label r ∈ ["contradiction"; "entailment"; "neutral"]) rows →
  tok_truncates tok 128 →
  sc_cache_agrees E tok path file fs →
  ∃ c fs' (L : nat),
    CorpusSC.init E path file model_name local_files_only fs = (Ok c, fs') ∧
    (L ≤ 128)%nat ∧
    (∀ r, r ∈ rows →
       (length (enc_ids (tok_encode tok 128 (premise r) (hypothesis r))) ≤ L)%nat) ∧
    (∃ r, r ∈ rows ∧
          length (enc_ids (tok_encode tok 128 (premise r) (hypothesis r))) = L) ∧
    ∀ id : Z, - Z.of_nat (length rows) ≤ id < Z.of_nat (length rows) →
      ∃ r item,
        py_index rows id = Ok r ∧
        CorpusSC.getitem c id = Ok item ∧
        sc_item_has_width L item ∧
        item !! "input_ids" =
          Some (T1 (pad (tok_padding_side tok) (tok_pad_id tok) L
                      (enc_ids (tok_encode tok 128 (premise r) (hypothesis r))))).
Proof.
  intros Htok Hfile Hrows Hne Hlabels Htr Hcache.
  assert (Forall (λ r, is_Some (sc_labels !! label r)) rows) as Hknown.
  { eapply Forall_impl; [exact Hlabels|]. intros r. apply sc_labels_known. }
  destruct (sc_init_valid E tok path file model_name local_files_only fs s rows
              Htok Hfile Hrows Hknown Hne Hcache) as [fs' Hinit].
  exists (sc_object tok (sc_data tok rows)), fs', (sc_width tok 128 rows).
  split; [done|]. split; [by apply sc_width_le|].
  split; [intros r; apply sc_encoding_le_width|]. split.
  - assert ((λ e, length (enc_ids e)) <$> sc_encodings tok 128 rows ≠ []) as Hne'.
    { unfold sc_encodings. destruct rows; [done|]. by csimpl. }
    apply max_list_attained in Hne'. fold (sc_width tok 128 rows) in Hne'.
    unfold sc_encodings in Hne'. rewrite <-list_fmap_compose in Hne'.
    apply list_elem_of_fmap in Hne' as (r & HL & Hr). exists r. by split.
  - intros id Hid. destruct (py_index_in_range rows id Hid) as (r & Hr & Hin).
    exists r, (sc_item tok 128 rows r). split; [done|].
    split; [by rewrite sc_getitem_data, Hr|].
    split; [by apply sc_item_width|]. apply sc_item_lookups.
Qed.

(** ** CorpusQA: the two branches of the constructor *)

Lemma qa_bundle_lookups (F : list Feature) (D : list Tensor) (X : list Example) :
  qa_bundle F D X !! "features" = Some (OFeatures F) ∧
  qa_bundle F D X !! "dataset" = Some (ODataset D) ∧
  qa_bundle F D X !! "examples" = Some (OExamples X).
Proof. done. Qed.

Section CorpusQA_branches.
Context (E : Env) (tok : Tokenizer) (path model_name : string)
        (local_files_only : bool) (fs : FS).
Hypothesis Htok : from_pretrained E model_name false local_files_only = Ok tok.

Lemma qa_preprocess_hit (evaluate : bool) (d : gmap string QAObj) (f ds x : QAObj) :
  fs !! CorpusQA.cached_features_file tok path = Some (TorchFile d) →
  d !! "features" = Some f → d !! "dataset" = Some ds → d !! "examples" = Some x →
  CorpusQA.preprocess E tok 384 128 64 path evaluate fs = (Ok (ds, x, f), fs).
Proof.
  intros Hc Hf Hd Hx.
  unfold CorpusQA.preprocess, bind, os_path_exists, torch_load, lift, dict_get.
  fold (CorpusQA.cached_features_file tok path). rewrite Hc.
  rewrite bool_decide_eq_true_2; [|by eexists].
  by rewrite Hc, Hf, Hd, Hx.
Qed.

(** On a miss, [preprocess] is the extraction, the conversion and one
    [torch.save]. *)
Lemma qa_preprocess_miss (evaluate : bool) :
  fs !! CorpusQA.cached_features_file tok path = None →
  CorpusQA.preprocess E tok 384 128 64 path evaluate fs =
  match fs !! qa_source path with
  | None => (Raise (FileNotFoundError (qa_source path)), fs)
  | Some (Text s) =>
      match create_examples E evaluate s with
      | Ok exs =>
          (Ok (ODataset (qa_tensors E tok evaluate exs), OExamples exs,
               OFeatures (qa_features E tok evaluate exs)),
           <[CorpusQA.cached_features_file tok path :=
               TorchFile (qa_bundle (qa_features E tok evaluate exs)
                            (qa_tensors E tok evaluate exs) exs)]> fs)
      | Raise e => (Raise e, fs)
      end
  | Some _ => (Raise (ParserError (qa_source path)), fs)
  end.
Proof.
  intros Hc.
  unfold CorpusQA.preprocess, bind, os_path_exists.
  fold (CorpusQA.cached_features_file tok path). rewrite Hc.
  rewrite bool_decide_eq_false_2 by (by intros [? ?]).
  unfold CorpusQA.get_examples, bind, read_text, lift. fold (qa_source path).
  destruct (fs !! qa_source path) as [[s| |]|]; try done.
  destruct (create_examples E evaluate s) as [exs|e]; [|done].
  unfold qa_tensors, qa_features.
  by destruct (squad_convert_examples_to_features _ _ _ _ _ _ _) as [F D].
Qed.

Lemma qa_init_unfold (evaluate : bool) :
  CorpusQA.init E path evaluate model_name local_files_only fs =
  match CorpusQA.preprocess E tok 384 128 64 path evaluate fs with
  | (Ok (ds, x, f), fs') =>
      match CorpusQA.columns ds with
      | Ok data => (Ok (qa_object tok model_name ds x f data), fs')
      | Raise e => (Raise e, fs')
      end
  | (Raise e, fs') => (Raise e, fs')
  end.
Proof.
  unfold CorpusQA.init, bind, lift. rewrite Htok.
  destruct (CorpusQA.preprocess _ _ _ _ _ _ _ _) as [[[[ds x] f]|e] fs']; [|done].
  by destruct (CorpusQA.columns ds).
Qed.

(** A successful construction on a miss, taken apart. *)
Lemma qa_init_miss_inv (evaluate : bool) (c : CorpusQA.t) (fs' : FS) :
  fs !! CorpusQA.cached_features_file tok path = None →
  CorpusQA.init E path evaluate model_name local_files_only fs = (Ok c, fs') →
  ∃ s exs data,
    fs !! qa_source path = Some (Text s) ∧
    create_examples E evaluate s = Ok exs ∧
    CorpusQA.columns (ODataset (qa_tensors E tok evaluate exs)) = Ok data ∧
    c = qa_object tok model_name (ODataset (qa_tensors E tok evaluate exs))
          (OExamples exs) (OFeatures (qa_features E tok evaluate exs)) data ∧
    fs' = <[CorpusQA.cached_features_file tok path :=
              TorchFile (qa_bundle (qa_features E tok evaluate exs)
                           (qa_tensors E tok evaluate exs) exs)]> fs.
Proof.
  intros Hc. rewrite qa_init_unfold, (qa_preprocess_miss evaluate Hc).
  destruct (fs !! qa_source path) as [[s| |]|]; try done.
  destruct (create_examples E evaluate s) as [exs|e] eqn:Hex; [|done].
  destruct (CorpusQA.columns _) as [data|e] eqn:Hcol; [|done].
  intros [= <- <-]. by exists s, exs, data.
Qed.

(** A construction that finds a cache file with the three entries. *)
Lemma qa_init_hit (evaluate : bool) (F : list Feature) (D : list Tensor)
    (X : list Example) (data : gmap string Item) :
  fs !! CorpusQA.cached_features_file tok path = Some (TorchFile (qa_bundle F D X)) →
  CorpusQA.columns (ODataset D) = Ok data →
  CorpusQA.init E path evaluate model_name local_files_only fs =
  (Ok (qa_object tok model_name (ODataset D) (OExamples X) (OFeatures F) data), fs).
Proof.
  intros Hc Hcol. rewrite qa_init_unfold.
  destruct (qa_bundle_lookups F D X) as (Hf & Hd & Hx).
  rewrite (qa_preprocess_hit evaluate _ _ _ _ Hc Hf Hd Hx). by rewrite Hcol.
Qed.

End CorpusQA_branches.

(** ** CorpusQA: what a freshly converted dataset holds *)

Lemma py_index_arange (n : nat) (i : Z) :
  - Z.of_nat n ≤ i < Z.of_nat n →
  py_index (Z.of_nat <$> seq 0 n) i = Ok (py_norm n i).
Proof.
  intros Hi. unfold py_index, py_norm. rewrite length_fmap, length_seq.
  set (j := if i <? 0 then i + Z.of_nat n else i).
  assert (0 ≤ j < Z.of_nat n) as Hj by (unfold j; zcmp; lia).
  clearbody j. zcmp; try lia.
  rewrite list_lookup_fmap, lookup_seq_lt by lia. simpl. f_equal. lia.
Qed.

Section CorpusQA_fresh.
Context (E : Env) (tok : Tokenizer) (evaluate : bool) (exs : list Example).

Local Abbreviation F := (qa_features E tok evaluate exs).
Local Abbreviation D := (qa_tensors E tok evaluate exs).

Lemma qa_features_eq :
  F = mjoin (convert_example E tok 384 128 64 (negb evaluate) <$> exs).
Proof. unfold qa_features, squad_convert_examples_to_features. by destruct evaluate. Qed.

Lemma qa_tensors_eq :
  D = if evaluate
      then [torch_tensor2 (f_input_ids <$> F); torch_tensor2 (f_attention_mask <$> F);
            torch_tensor2 (f_token_type_ids <$> F);
            T1 (Z.of_nat <$> seq 0 (length F)); T1 (f_cls_index <$> F);
            torch_tensor2 (f_p_mask <$> F)]
      else [torch_tensor2 (f_input_ids <$> F); torch_tensor2 (f_attention_mask <$> F);
            torch_tensor2 (f_token_type_ids <$> F);
            T1 (f_start_position <$> F); T1 (f_end_position <$> F);
            T1 (f_cls_index <$> F); torch_tensor2 (f_p_mask <$> F);
            T1 ((λ f, if f_is_impossible f then 1 else 0) <$> F)].
Proof. unfold qa_tensors, qa_features, squad_convert_examples_to_features. by destruct evaluate. Qed.

Lemma qa_len_fresh : obj_len (ODataset D) = Ok (length F).
Proof.
  rewrite qa_tensors_eq. unfold obj_len. generalize F. intros l.
  destruct evaluate; simpl.
  all: by rewrite size0_torch_tensor2, length_fmap.
Qed.

Lemma qa_columns_fresh : ∃ data, CorpusQA.columns (ODataset D) = Ok data.
Proof.
  rewrite qa_tensors_eq. unfold CorpusQA.columns, obj_slice_col. generalize F. intros l.
  destruct evaluate; simpl; rewrite !tensor_slice_all_torch_tensor2; simpl; eauto.
Qed.

(** Indexing every tensor of the dataset at [id]: the row of the
    feature at [id]. *)
Lemma qa_row_fresh (id : Z) :
  res_map (λ t, tensor_index t id) D =
  try f := py_index F id in
  Ok (if evaluate
      then [T1 (f_input_ids f); T1 (f_attention_mask f); T1 (f_token_type_ids f);
            T0 (py_norm (length F) id); T0 (f_cls_index f); T1 (f_p_mask f)]
      else [T1 (f_input_ids f); T1 (f_attention_mask f); T1 (f_token_type_ids f);
            T0 (f_start_position f); T0 (f_end_position f); T0 (f_cls_index f);
            T1 (f_p_mask f); T0 (if f_is_impossible f then 1 else 0)]).
Proof.
  rewrite qa_tensors_eq. generalize F. intros l.
  destruct evaluate; simpl;
    rewrite !tensor_index_torch_tensor2, !(py_index_fmap _ l);
    destruct (py_index l id) as [f|e] eqn:Hf; simpl; try done.
  apply py_index_Ok_range in Hf. by rewrite py_index_arange.
Qed.

Lemma qa_getitem_fresh (c : CorpusQA.t) (id : Z) :
  CorpusQA.dataset c = ODataset D →
  CorpusQA.getitem c id =
  try f := py_index F id in Ok (qa_item evaluate (length F) id f).
Proof.
  intros Hds. unfold CorpusQA.getitem. rewrite Hds.
  unfold obj_item_col. rewrite qa_row_fresh.
  unfold qa_item. generalize F. intros l.
  destruct (py_index l id) as [f|e]; simpl; [|done].
  by destruct evaluate.
Qed.

End CorpusQA_fresh.

Lemma qa_cache_agrees_None (E : Env) (tok : Tokenizer) (path : string) (fs : FS) :
  fs !! CorpusQA.cached_features_file tok path = None → qa_cache_agrees E tok path fs.
Proof. intros Hc. unfold qa_cache_agrees. by rewrite Hc. Qed.

Section CorpusQA_valid.
Context (E : Env) (tok : Tokenizer) (path model_name : string)
        (local_files_only : bool) (fs : FS).
Hypothesis Htok : from_pretrained E model_name false local_files_only = Ok tok.

(** A miss on a readable source file: the constructor succeeds, holds
    the converted dataset and writes the cache file. *)
Lemma qa_init_miss (evaluate : bool) (s : string) (exs : list Example) :
  fs !! CorpusQA.cached_features_file tok path = None →
  fs !! qa_source path = Some (Text s) →
  create_examples E evaluate s = Ok exs →
  ∃ data,
    CorpusQA.columns (ODataset (qa_tensors E tok evaluate exs)) = Ok data ∧
    CorpusQA.init E path evaluate model_name local_files_only fs =
    (Ok (qa_object tok model_name (ODataset (qa_tensors E tok evaluate exs))
           (OExamples exs) (OFeatures (qa_features E tok evaluate exs)) data),
     <[CorpusQA.cached_features_file tok path :=
         TorchFile (qa_bundle (qa_features E tok evaluate exs)
                      (qa_tensors E tok evaluate exs) exs)]> fs).
Proof.
  intros Hc Hs Hx. destruct (qa_columns_fresh E tok evaluate exs) as [data Hcol].
  exists data. split; [done|].
  rewrite (qa_init_unfold E tok path model_name local_files_only fs Htok).
  rewrite (qa_preprocess_miss E tok path fs evaluate Hc), Hs, Hx. by rewrite Hcol.
Qed.

(** With no cache, or one that agrees with the source file, the
    constructor succeeds and holds a freshly converted dataset: that of
    its own flag on a miss, that of the cache's flag on a hit. *)
Lemma qa_init_valid (evaluate : bool) (s : string) (exs : list Example) :
  fs !! qa_source path = Some (Text s) →
  create_examples E evaluate s = Ok exs →
  qa_cache_agrees E tok path fs →
  ∃ c fs' ev exs',
    CorpusQA.init E path evaluate model_name local_files_only fs = (Ok c, fs') ∧
    CorpusQA.dataset c = ODataset (qa_tensors E tok ev exs') ∧
    CorpusQA.examples c = OExamples exs' ∧
    CorpusQA.features c = OFeatures (qa_features E tok ev exs').
Proof.
  intros Hs Hx. unfold qa_cache_agrees.
  destruct (fs !! CorpusQA.cached_features_file tok path) as [f|] eqn:Hc.
  - intros (ev & s' & exs' & _ & _ & ->).
    destruct (qa_columns_fresh E tok ev exs') as [data Hcol].
    eexists _, fs, ev, exs'.
    rewrite (qa_init_hit E tok path model_name local_files_only fs Htok
               evaluate _ _ _ data Hc Hcol).
    done.
  - intros _. destruct (qa_init_miss evaluate s exs Hc Hs Hx) as (data & _ & ->).
    by eexists _, _, evaluate, exs.
Qed.

End CorpusQA_valid.

Lemma qa_tensors_rows (E : Env) (tok : Tokenizer) (evaluate : bool) (exs : list Example) :
  Forall (λ t, size0 t = Ok (length (qa_features E tok evaluate exs)))
    (qa_tensors E tok evaluate exs).
Proof.
  rewrite qa_tensors_eq. generalize (qa_features E tok evaluate exs). intros l.
  destruct evaluate; repeat constructor; simpl;
    by rewrite ?size0_torch_tensor2, ?length_fmap, ?length_seq.
Qed.

Lemma qa_features_length (E : Env) (tok : Tokenizer) (evaluate : bool)
    (exs : list Example) (f : Feature) :
  converts_to_length E tok 384 →
  f ∈ qa_features E tok evaluate exs →
  length (f_input_ids f) = 384%nat ∧ length (f_attention_mask f) = 384%nat ∧
  length (f_token_type_ids f) = 384%nat.
Proof.
  intros Hconv. rewrite qa_features_eq.
  intros (l & Hf & Hl)%list_elem_of_join.
  apply list_elem_of_fmap in Hl as (ex & -> & _). by eapply Hconv.
Qed.

Lemma qa_item_dom (evaluate : bool) (n : nat) (id : Z) (f : Feature) :
  dom (qa_item evaluate n id f) = qa_keys.
Proof. unfold qa_item, qa_keys. rewrite !dom_insert_L, dom_singleton_L. set_solver. Qed.

Lemma qa_item_lookups (evaluate : bool) (n : nat) (id : Z) (f : Feature) :
  qa_item evaluate n id f !! "input_ids" = Some (ITensor (T1 (f_input_ids f))) ∧
  qa_item evaluate n id f !! "attention_mask" = Some (ITensor (T1 (f_attention_mask f))) ∧
  qa_item evaluate n id f !! "token_type_ids" = Some (ITensor (T1 (f_token_type_ids f))) ∧
  qa_item evaluate n id f !! "answer_start" =
    Some (ITensor (T0 (if evaluate then py_norm n id else f_start_position f))) ∧
  qa_item evaluate n id f !! "answer_end" =
    Some (ITensor (T0 (if evaluate then f_cls_index f else f_end_position f))).
Proof. done. Qed.

(** ** CorpusQA: items *)

(** C4, as the specification states it, fails: the item of the one
    example of the sample file has the five keys, but its answer start
    is the number 1, not a sequence of 384 numbers. *)
Lemma qa_item_not_all_sequences :
  ∃ c fs' item,
    CorpusQA.init Sample.env "data/train.json" false "xlm-roberta-base" false
      Sample.qa_fs = (Ok c, fs') ∧
    CorpusQA.len c = Ok 1%nat ∧
    CorpusQA.getitem c 0 = Ok item ∧
    item !! "answer_start" = Some (ITensor (T0 1)) ∧
    ¬ qa_item_all_sequences 384 item.
Proof.
  pose (x0 := {| qas_id := "q1"; question_text := "Who eats?";
                 context_text := "A man is eating."; answer_text := Some "A man";
                 start_position_character := Some 0 |}).
  destruct (qa_init_miss Sample.env (Sample.tok false) "data/train.json"
              "xlm-roberta-base" false Sample.qa_fs eq_refl false Sample.qa_text [x0])
    as (data & _ & Hinit).
  { vm_compute. reflexivity. }
  { vm_compute. reflexivity. }
  { vm_compute. reflexivity. }
  pose (e0 := tok_encode (Sample.tok false) 384 (question_text x0) (context_text x0)).
  pose (f := {| f_input_ids := pad PadRight 1 384 (enc_ids e0);
                f_attention_mask := pad PadRight 0 384 (replicate (length (enc_ids e0)) 1);
                f_token_type_ids := pad PadRight 0 384 (enc_type_ids e0);
                f_cls_index := 0; f_p_mask := replicate 384 0;
                f_start_position := 1; f_end_position := 1;
                f_is_impossible := false |}).
  assert (qa_features Sample.env (Sample.tok false) false [x0] = [f]) as HF
    by (by rewrite qa_features_eq).
  eexists _, _, (qa_item false 1 0 f).
  split; [exact Hinit|]. split.
  { unfold CorpusQA.len, qa_object. cbn [CorpusQA.dataset].
    by rewrite qa_len_fresh, HF. }
  split.
  { erewrite (qa_getitem_fresh Sample.env (Sample.tok false) false [x0]); [|reflexivity].
    rewrite HF. pose proof (py_index_nat [f] 0 f eq_refl) as Hr.
    change (Z.of_nat 0) with 0 in Hr. by rewrite Hr. }
  destruct (qa_item_lookups false 1 0 f) as (_ & _ & _ & Hstart & _).
  split; [exact Hstart|].
  intros [_ Hall].
  destruct (Hall "answer_start" _ Hstart) as (t & Ht & v & -> & _).
  discriminate.
Qed.

(** C4, amended.  For a valid source file the constructor succeeds;
    [length()] is the number of rows of the converted dataset; and at
    every index in range the item has exactly the five keys, with
    [input_ids], [attention_mask] and [token_type_ids] sequences of 384
    numbers and [answer_start] and [answer_end] single numbers. *)
Theorem qa_length_and_items
    (E : Env) (tok : Tokenizer) (path : string) (evaluate : bool)
    (model_name : string) (local_files_only : bool) (fs : FS)
    (s : string) (exs : list Example) :
  from_pretrained E model_name false local_files_only = Ok tok →
  converts_to_length E tok 384 →
  fs !! qa_source path = Some (Text s) →
  create_examples E evaluate s = Ok exs →
  qa_cache_agrees E tok path fs →
  ∃ c fs' D (n : nat),
    CorpusQA.init E path evaluate model_name local_files_only fs = (Ok c, fs') ∧
    CorpusQA.max_seq_len c = 384%nat ∧
    CorpusQA.dataset c = ODataset D ∧
    Forall (λ t, size0 t = Ok n) D ∧
    CorpusQA.len c = Ok n ∧
    ∀ id : Z, - Z.of_nat n ≤ id < Z.of_nat n →
      ∃ item a b t st en,
        CorpusQA.getitem c id = Ok item ∧
        dom item = qa_keys ∧
        item !! "input_ids" = Some (ITensor a) ∧
        item !! "attention_mask" = Some (ITensor b) ∧
        item !! "token_type_ids" = Some (ITensor t) ∧
        item !! "answer_start" = Some (ITensor st) ∧
        item !! "answer_end" = Some (ITensor en) ∧
        is_seq 384 a ∧ is_seq 384 b ∧ is_seq 384 t ∧
        is_scalar st ∧ is_scalar en.
Proof.
  intros Htok Hconv Hs Hx Hcache.
  destruct (qa_init_valid E tok path model_name local_files_only fs Htok
              evaluate s exs Hs Hx Hcache)
    as (c & fs' & ev & exs' & Hinit & Hds & _ & _).
  exists c, fs', (qa_tensors E tok ev exs'), (length (qa_features E tok ev exs')).
  split; [done|]. split.
  { rewrite (qa_init_unfold E tok path model_name local_files_only fs Htok) in Hinit.
    destruct (CorpusQA.preprocess _ _ _ _ _ _ _ _) as [[[[ds x] f]|e] fs1]; [|done].
    destruct (CorpusQA.columns ds); [|done]. by injection Hinit as <- _. }
  split; [done|]. split; [apply qa_tensors_rows|].
  split; [unfold CorpusQA.len; rewrite Hds; apply qa_len_fresh|].
  intros id Hid. destruct (py_index_in_range _ id Hid) as (f & Hf & Hin).
  destruct (qa_features_length E tok ev exs' f Hconv Hin) as (Ha & Hb & Ht).
  eexists (qa_item ev _ id f), _, _, _, _, _.
  split; [by rewrite (qa_getitem_fresh E tok ev exs' c id Hds), Hf|].
  split; [apply qa_item_dom|].
  do 5 (split; [done|]).
  unfold is_seq, is_scalar. repeat split; eauto.
Qed.

(** ** Empty sources *)

(** A file with no rows: the tokenizer call on the empty batch raises,
    before the labels are mapped and before anything is written. *)
Lemma sc_init_no_rows (E : Env) (tok : Tokenizer) (path file model_name : string)
    (local_files_only : bool) (fs : FS) (s : string) :
  from_pretrained E model_name true local_files_only = Ok tok →
  fs !! path = Some (Text s) →
  read_csv E s = Ok [] →
  fs !! CorpusSC.cached_data_file tok path = None →
  CorpusSC.init E path file model_name local_files_only fs =
    (Raise (if tok_fast tok then IndexError else ValueError), fs).
Proof.
  intros Htok Hf Hr Hc. rewrite (sc_init_miss E tok _ _ _ _ _ Htok Hc).
  unfold CorpusSC.preprocess, bind, read_text, lift. by rewrite Hf, Hr.
Qed.

(** C9, as the specification states it, fails: on the empty sample file
    (no cache), the [CorpusSC] constructor raises [IndexError] in the
    tokenizer call; there is no dataset whose length could be 0, and no
    cache file is written. *)
Lemma sc_empty_source_raises :
  Sample.nli_empty_fs !! "data/xnli.tsv" = Some (Text "") ∧
  CorpusSC.init Sample.env "data/xnli.tsv" "xnli.tsv" "xlm-roberta-base" false
    Sample.nli_empty_fs = (Raise IndexError, Sample.nli_empty_fs) ∧
  Sample.nli_empty_fs !! "data/xnli.tsv_XLMRobertaTokenizerFast.pickle" = None.
Proof.
  split; [vm_compute; reflexivity|]. split; [|vm_compute; reflexivity].
  apply (sc_init_no_rows Sample.env (Sample.tok true) _ _ _ _ _ "");
    vm_compute; reflexivity.
Qed.

(** C9, amended.  With no cache file, a [CorpusSC] source from which the
    reader gets no row makes the constructor raise in the tokenizer
    call ([IndexError] for a fast tokenizer, [ValueError] for a slow
    one) and leaves the file system as it was.  A [CorpusQA] source from
    which the processor extracts no example gives a dataset of length
    0, and indexed access at position 0 raises [IndexError]. *)
Theorem empty_source_behaviour :
  (∀ (E : Env) (tok : Tokenizer) (path file model_name : string)
     (local_files_only : bool) (fs : FS) (s : string),
     from_pretrained E model_name true local_files_only = Ok tok →
     fs !! path = Some (Text s) →
     read_csv E s = Ok [] →
     fs !! CorpusSC.cached_data_file tok path = None →
     ∃ e,
       CorpusSC.init E path file model_name local_files_only fs = (Raise e, fs) ∧
       e = (if tok_fast tok then IndexError else ValueError) ∧
       fs !! CorpusSC.cached_data_file tok path = None) ∧
  (∀ (E : Env) (tok : Tokenizer) (path : string) (evaluate : bool)
     (model_name : string) (local_files_only : bool) (fs : FS) (s : string),
     from_pretrained E model_name false local_files_only = Ok tok →
     fs !! qa_source path = Some (Text s) →
     create_examples E evaluate s = Ok [] →
     fs !! CorpusQA.cached_features_file tok path = None →
     ∃ c fs',
       CorpusQA.init E path evaluate model_name local_files_only fs = (Ok c, fs') ∧
       CorpusQA.len c = Ok 0%nat ∧
       CorpusQA.getitem c 0 = Raise IndexError).
Proof.
  split.
  - intros E tok path file model_name lfo fs s Htok Hf Hr Hc.
    eexists. split; [by apply (sc_init_no_rows E tok path file model_name lfo fs s)|].
    by split.
  - intros E tok path evaluate model_name lfo fs s Htok Hf Hx Hc.
    destruct (qa_init_miss E tok path model_name lfo fs Htok
                evaluate s [] Hc Hf Hx) as (data & _ & Hinit).
    assert (qa_features E tok evaluate [] = []) as Hnil
      by (by rewrite qa_features_eq).
    eexists _, _. split; [exact Hinit|]. split.
    + unfold CorpusQA.len, qa_object. cbn [CorpusQA.dataset].
      by rewrite qa_len_fresh, Hnil.
    + erewrite (qa_getitem_fresh E tok evaluate []); [|reflexivity].
      by rewrite Hnil, py_index_nil.
Qed.

(** ** Paths *)

Lemma split_nonempty (sep : ascii) (s : string) : split sep s ≠ [].
Proof.
  destruct s as [|c s]; simpl; [done|].
  destruct (Ascii.eqb c sep); [done|]. by destruct (split sep s).
Qed.

Lemma split_no_sep (s : string) : has_sep s = false → split "/" s = [s].
Proof.
  induction s as [|c s IH]; simpl; [done|].
  destruct (Ascii.eqb c "/"); simpl; [done|].
  intros Hs. by rewrite IH.
Qed.

Lemma split_app_sep (d f : string) :
  has_sep f = false → split "/" (d +:+ "/" +:+ f) = (split "/" d ++ [f])%list.
Proof.
  intros Hf. induction d as [|c d IH]; simpl.
  - by rewrite split_no_sep.
  - fold (d +:+ "/" +:+ f). rewrite IH.
    destruct (Ascii.eqb c "/"); [done|].
    pose proof (split_nonempty "/" d) as Hne.
    by destruct (split "/" d).
Qed.

Lemma join_cons_String (sep : string) (c : ascii) (w : string) (ws : list string) :
  join sep (String c w :: ws) = String c (join sep (w :: ws)).
Proof. by destruct ws. Qed.

Lemma join_split (s : string) : join "/" (split "/" s) = s.
Proof.
  induction s as [|c s IH]; simpl; [done|].
  pose proof (split_nonempty "/" s) as Hne.
  destruct (Ascii.eqb_spec c "/") as [->|Hc].
  - destruct (split "/" s) as [|w ws]; [done|]. by rewrite <-IH.
  - destruct (split "/" s) as [|w ws]; [done|].
    by rewrite join_cons_String, IH.
Qed.

Lemma os_path_join_plain (a b : string) :
  a ≠ "" → endswith_sep a = false → startswith_sep b = false →
  os_path_join a b = a +:+ "/" +:+ b.
Proof.
  intros Ha He Hb. unfold os_path_join. rewrite Hb, He.
  by rewrite bool_decide_eq_false_2.
Qed.

Lemma os_path_join_empty (b : string) :
  startswith_sep b = false → os_path_join "" b = b.
Proof. intros Hb. unfold os_path_join. by rewrite Hb. Qed.

(** The cache path of a source [dir/name]. *)
Lemma cached_features_file_split (tok : Tokenizer) (dir name : string) :
  has_sep name = false →
  CorpusQA.cached_features_file tok (dir +:+ "/" +:+ name) =
  os_path_join dir ("cached_" +:+ tok_class tok +:+ "_" +:+ name).
Proof.
  intros Hn. unfold CorpusQA.cached_features_file.
  rewrite split_app_sep by done.
  by rewrite last_last, removelast_last, join_split.
Qed.

Lemma cached_features_file_dir (tok : Tokenizer) (dir name : string) :
  has_sep name = false → dir ≠ "" → endswith_sep dir = false →
  CorpusQA.cached_features_file tok (dir +:+ "/" +:+ name) =
  dir +:+ "/" +:+ "cached_" +:+ tok_class tok +:+ "_" +:+ name.
Proof.
  intros Hn Hd He. rewrite cached_features_file_split by done.
  by apply os_path_join_plain.
Qed.

Lemma cached_features_file_root (tok : Tokenizer) (name : string) :
  has_sep name = false →
  CorpusQA.cached_features_file tok ("/" +:+ name) =
  "cached_" +:+ tok_class tok +:+ "_" +:+ name.
Proof.
  intros Hn. change ("/" +:+ name) with ("" +:+ "/" +:+ name).
  rewrite cached_features_file_split by done. by apply os_path_join_empty.
Qed.

Lemma cached_features_file_bare (tok : Tokenizer) (name : string) :
  has_sep name = false →
  CorpusQA.cached_features_file tok name =
  "cached_" +:+ tok_class tok +:+ "_" +:+ name.
Proof.
  intros Hn. unfold CorpusQA.cached_features_file.
  rewrite split_no_sep by done. simpl. by apply os_path_join_empty.
Qed.

(** ** Cache files *)

Lemma qa_bundle_dom (F : list Feature) (D : list Tensor) (X : list Example) :
  dom (qa_bundle F D X) = qa_bundle_keys.
Proof.
  unfold qa_bundle, qa_bundle_keys. rewrite !dom_insert_L, dom_singleton_L. set_solver.
Qed.

Lemma sc_dataset_dom (ids : BatchEncoding) (labels : list Z) :
  dom (sc_dataset ids labels) = sc_keys.
Proof.
  unfold sc_dataset, sc_keys. rewrite !dom_insert_L, dom_singleton_L. set_solver.
Qed.

(** A successful [CorpusSC] construction on a miss, taken apart. *)
Lemma sc_init_miss_inv (E : Env) (tok : Tokenizer) (path file model_name : string)
    (local_files_only : bool) (fs : FS) (c : CorpusSC.t) (fs' : FS) :
  from_pretrained E model_name true local_files_only = Ok tok →
  fs !! CorpusSC.cached_data_file tok path = None →
  CorpusSC.init E path file model_name local_files_only fs = (Ok c, fs') →
  ∃ ids labels,
    c = sc_object tok (sc_dataset ids labels) ∧
    fs' = <[CorpusSC.cached_data_file tok path := Pickle (sc_dataset ids labels)]> fs.
Proof.
  intros Htok Hc. rewrite (sc_init_miss E tok _ _ _ _ _ Htok Hc).
  unfold CorpusSC.preprocess, bind, read_text, lift, ret.
  destruct (fs !! path) as [[s| |]|]; try done.
  destruct (read_csv E s) as [df|]; [|done].
  destruct (tokenizer_call _ _ _ _) as [ids|]; [|done].
  destruct (res_map _ _) as [labels|]; [|done].
  intros [= <- <-]. by exists ids, labels.
Qed.

(** A construction after a successful first one finds the cache file,
    returns the same object and leaves the file system alone, whatever
    the flag and whatever the extraction and conversion routines are. *)
Lemma qa_init_again (E E' : Env) (tok : Tokenizer) (path model_name : string)
    (local_files_only : bool) (fs fs1 : FS) (e1 e2 : bool) (c1 : CorpusQA.t) :
  from_pretrained E model_name false local_files_only = Ok tok →
  from_pretrained E' model_name false local_files_only = Ok tok →
  fs !! CorpusQA.cached_features_file tok path = None →
  CorpusQA.init E path e1 model_name local_files_only fs = (Ok c1, fs1) →
  CorpusQA.init E' path e2 model_name local_files_only fs1 = (Ok c1, fs1).
Proof.
  intros Htok Htok' Hc Hinit.
  destruct (qa_init_miss_inv E tok path model_name local_files_only fs Htok
              e1 c1 fs1 Hc Hinit) as (s & exs & data & _ & _ & Hcol & -> & ->).
  apply (qa_init_hit E' tok path model_name local_files_only _ Htok' e2); [|done].
  apply lookup_insert_eq.
Qed.


(** C6.  The code at the failing input: for the source path
    ["/train.json"] the constructor opens the relative path
    ["train.json"] and writes the cache to the relative path
    ["cached_XLMRobertaTokenizer_train.json"]; nothing is written to
    ["/cached_XLMRobertaTokenizer_train.json"], beside the source. *)
Lemma qa_cache_not_under_root :
  ∃ c fs',
    qa_source ("" +:+ "/" +:+ "train.json") = "train.json" ∧
    CorpusQA.init Sample.env ("" +:+ "/" +:+ "train.json") false "xlm-roberta-base" false
      Sample.qa_root_fs = (Ok c, fs') ∧
    Sample.qa_root_fs !! "cached_XLMRobertaTokenizer_train.json" = None ∧
    fs' !! ("" +:+ "/" +:+ "cached_" +:+ "XLMRobertaTokenizer" +:+ "_" +:+ "train.json") = None ∧
    is_Some (fs' !! "cached_XLMRobertaTokenizer_train.json").
Proof.
  destruct (qa_init_miss Sample.env (Sample.tok false) ("" +:+ "/" +:+ "train.json")
              "xlm-roberta-base" false Sample.qa_root_fs eq_refl false Sample.qa_text
              (Sample.qa_examples false)) as (data & _ & Hinit).
  { vm_compute. reflexivity. }
  { vm_compute. reflexivity. }
  { vm_compute. reflexivity. }
  eexists _, _. split; [reflexivity|]. split; [exact Hinit|].
  assert (CorpusQA.cached_features_file (Sample.tok false) ("" +:+ "/" +:+ "train.json")
          = "cached_XLMRobertaTokenizer_train.json") as -> by reflexivity.
  split; [vm_compute; reflexivity|]. split.
  - rewrite lookup_insert_ne by discriminate. vm_compute. reflexivity.
  - rewrite lookup_insert_eq. by eexists.
Qed.

(** X13.  On a cache miss a successful [CorpusQA] construction changes
    the file system at exactly one path, which then holds a dictionary
    with exactly the keys features, dataset and examples (the objects
    the constructor keeps).  The path is
    [os.path.join(dir, "cached_<TokenizerClassName>_<filename>")] for the
    part [dir] of the source path before its last slash: it is
    [dir/cached_<TokenizerClassName>_<filename>] when [dir] is not empty
    and does not end in a slash, and, as the code behaves,
    [cached_<TokenizerClassName>_<filename>] when [dir] is empty.  A
    successful [CorpusSC] construction on a miss changes the file system
    at exactly the path [<path>_<TokenizerClassName>.pickle], which then
    holds the four-field dictionary the constructor keeps. *)
Theorem cache_files_written :
  (∀ (E : Env) (tok : Tokenizer) (path : string) (evaluate : bool)
     (model_name : string) (local_files_only : bool) (fs fs' : FS) (c : CorpusQA.t),
     from_pretrained E model_name false local_files_only = Ok tok →
     fs !! CorpusQA.cached_features_file tok path = None →
     CorpusQA.init E path evaluate model_name local_files_only fs = (Ok c, fs') →
     ∃ d,
       fs' = <[CorpusQA.cached_features_file tok path := TorchFile d]> fs ∧
       dom d = qa_bundle_keys ∧
       d !! "features" = Some (CorpusQA.features c) ∧
       d !! "dataset" = Some (CorpusQA.dataset c) ∧
       d !! "examples" = Some (CorpusQA.examples c)) ∧
  (∀ (tok : Tokenizer) (dir name : string),
     has_sep name = false →
     CorpusQA.cached_features_file tok (dir +:+ "/" +:+ name) =
       os_path_join dir ("cached_" +:+ tok_class tok +:+ "_" +:+ name) ∧
     (dir ≠ "" → endswith_sep dir = false →
      CorpusQA.cached_features_file tok (dir +:+ "/" +:+ name) =
        dir +:+ "/" +:+ "cached_" +:+ tok_class tok +:+ "_" +:+ name) ∧
     CorpusQA.cached_features_file tok ("" +:+ "/" +:+ name) =
       "cached_" +:+ tok_class tok +:+ "_" +:+ name ∧
     CorpusQA.cached_features_file tok name =
       "cached_" +:+ tok_class tok +:+ "_" +:+ name) ∧
  (∀ (E : Env) (tok : Tokenizer) (path file model_name : string)
     (local_files_only : bool) (fs fs' : FS) (c : CorpusSC.t),
     from_pretrained E model_name true local_files_only = Ok tok →
     fs !! (path +:+ "_" +:+ tok_class tok +:+ ".pickle") = None →
     CorpusSC.init E path file model_name local_files_only fs = (Ok c, fs') →
     fs' = <[path +:+ "_" +:+ tok_class tok +:+ ".pickle" := Pickle (CorpusSC.data c)]> fs ∧
     dom (CorpusSC.data c) = sc_keys).
Proof.
  split; [|split].
  - intros E tok path evaluate model_name lfo fs fs' c Htok Hc Hinit.
    destruct (qa_init_miss_inv E tok path model_name lfo fs Htok evaluate c fs' Hc Hinit)
      as (s & exs & data & _ & _ & _ & -> & ->).
    eexists. split; [done|]. split; [apply qa_bundle_dom|]. apply qa_bundle_lookups.
  - intros tok dir name Hn.
    split; [by apply cached_features_file_split|].
    split; [intros; by apply cached_features_file_dir|].
    split; [by apply cached_features_file_root|by apply cached_features_file_bare].
  - intros E tok path file model_name lfo fs fs' c Htok Hc Hinit.
    destruct (sc_init_miss_inv E tok path file model_name lfo fs c fs' Htok Hc Hinit)
      as (ids & labels & -> & ->).
    split; [done|]. apply sc_dataset_dom.
Qed.

(** ** Loading what was saved *)



(** C10.  The cache path of [CorpusQA] is computed from the tokenizer's
    class name and the source path only, not from the flag.  So after a
    successful construction with one value of the flag on an uncached
    source, a construction with any value of the flag hits the cache
    and returns the features, dataset and examples of the first one,
    which are those converted under the first flag; the extraction and
    conversion routines are not consulted, and the file system is left
    as it was. *)
Theorem qa_cache_ignores_evaluate
    (E : Env) (tok : Tokenizer) (path model_name : string) (local_files_only : bool)
    (fs fs1 : FS) (e1 e2 : bool) (c1 : CorpusQA.t) :
  from_pretrained E model_name false local_files_only = Ok tok →
  fs !! CorpusQA.cached_features_file tok path = None →
  CorpusQA.init E path e1 model_name local_files_only fs = (Ok c1, fs1) →
  (∀ tok', tok_class tok' = tok_class tok →
     CorpusQA.cached_features_file tok' path = CorpusQA.cached_features_file tok path) ∧
  is_Some (fs1 !! CorpusQA.cached_features_file tok path) ∧
  (∃ s exs,
     fs !! qa_source path = Some (Text s) ∧
     create_examples E e1 s = Ok exs ∧
     CorpusQA.dataset c1 = ODataset (qa_tensors E tok e1 exs) ∧
     CorpusQA.examples c1 = OExamples exs ∧
     CorpusQA.features c1 = OFeatures (qa_features E tok e1 exs)) ∧
  ∃ c2,
    CorpusQA.init E path e2 model_name local_files_only fs1 = (Ok c2, fs1) ∧
    CorpusQA.features c2 = CorpusQA.features c1 ∧
    CorpusQA.dataset c2 = CorpusQA.dataset c1 ∧
    CorpusQA.examples c2 = CorpusQA.examples c1 ∧
    ∀ E', from_pretrained E' model_name false local_files_only = Ok tok →
          CorpusQA.init E' path e2 model_name local_files_only fs1 = (Ok c2, fs1).
Proof.
  intros Htok Hc Hinit.
  split. { intros tok' Hcls. unfold CorpusQA.cached_features_file. by rewrite Hcls. }
  destruct (qa_init_miss_inv E tok path model_name local_files_only fs Htok e1 c1 fs1
              Hc Hinit) as (s & exs & data & Hs & Hx & _ & Hc1 & Hfs1).
  split. { rewrite Hfs1, lookup_insert_eq. by eexists. }
  split. { exists s, exs. by rewrite Hc1. }
  exists c1. split.
  { by apply (qa_init_again E E tok path model_name local_files_only fs fs1 e1 e2). }
  do 3 (split; [done|]). intros E' Htok'.
  by apply (qa_init_again E E' tok path model_name local_files_only fs fs1 e1 e2).
Qed.

(** ** Concrete runs on the sample environment *)

Lemma sample_tok_truncates (use_fast : bool) (n : nat) :
  tok_truncates (Sample.tok use_fast) n.
Proof.
  intros a b. simpl. unfold Sample.encode. simpl.
  rewrite length_replicate. split; [|done].
  rewrite length_take. lia.
Qed.

Lemma sample_converts_to_length (tk : Tokenizer) (n : nat) :
  tok_truncates tk n → converts_to_length Sample.env tk n.
Proof.
  intros Htr ds mq tr ex f. simpl. unfold Sample.convert.
  intros ->%list_elem_of_singleton. simpl.
  destruct (Htr (question_text ex) (context_text ex)) as [Hle Hty].
  rewrite !length_app, !length_replicate. lia.
Qed.

Lemma sample_read_nli : read_csv Sample.env Sample.nli_text = Ok Sample.nli_rows.
Proof. vm_compute. reflexivity. Qed.

Lemma sample_read_nli_bad :
  read_csv Sample.env Sample.nli_bad_text = Ok Sample.nli_bad_rows.
Proof. vm_compute. reflexivity. Qed.

Lemma sample_read_qa (evaluate : bool) :
  create_examples Sample.env evaluate Sample.qa_text = Ok (Sample.qa_examples evaluate).
Proof. destruct evaluate; vm_compute; reflexivity. Qed.

Lemma sample_sc_run :
  ∃ c fs', CorpusSC.init Sample.env "data/xnli.tsv" "xnli.tsv" "xlm-roberta-base" false
             Sample.nli_fs = (Ok c, fs').
Proof.
  destruct (sc_init_valid Sample.env (Sample.tok true) "data/xnli.tsv" "xnli.tsv"
              "xlm-roberta-base" false Sample.nli_fs Sample.nli_text Sample.nli_rows)
    as [fs' Hinit].
  - reflexivity.
  - vm_compute. reflexivity.
  - exact sample_read_nli.
  - compute_done.
  - discriminate.
  - apply sc_cache_agrees_None. vm_compute. reflexivity.
  - eauto.
Qed.

Lemma sample_qa_run (evaluate : bool) :
  ∃ c fs', CorpusQA.init Sample.env "data/train.json" evaluate "xlm-roberta-base" false
             Sample.qa_fs = (Ok c, fs').
Proof.
  destruct (qa_init_miss Sample.env (Sample.tok false) "data/train.json"
              "xlm-roberta-base" false Sample.qa_fs eq_refl evaluate Sample.qa_text
              (Sample.qa_examples evaluate)) as (data & _ & Hinit).
  - vm_compute. reflexivity.
  - vm_compute. reflexivity.
  - apply sample_read_qa.
  - eauto.
Qed.

Lemma sc_preprocess_swaps_witness :
  ∃ ids d c,
    tokenizer_call (Sample.tok true) (premise <$> Sample.nli_rows)
      (hypothesis <$> Sample.nli_rows) 128 = Ok ids ∧
    CorpusSC.preprocess Sample.env (Sample.tok true) 128 sc_labels "data/xnli.tsv"
      "xnli.tsv" Sample.nli_fs = (Ok d, Sample.nli_fs) ∧
    d !! "token_type_ids" = Some (be_attention_mask ids) ∧
    d !! "attention_mask" = Some (be_token_type_ids ids) ∧
    d !! "input_ids" = Some (be_input_ids ids) ∧
    CorpusSC.init Sample.env "data/xnli.tsv" "xnli.tsv" "xlm-roberta-base" false
      Sample.nli_fs =
      (Ok c, <[CorpusSC.cached_data_file (Sample.tok true) "data/xnli.tsv" := Pickle d]>
               Sample.nli_fs) ∧
    CorpusSC.data c = d.
Proof.
  destruct (sc_tokenizer_call_rows (Sample.tok true) Sample.nli_rows 128) as [ids Hids].
  { discriminate. }
  destruct (sc_preprocess_swaps_mask_and_type_ids Sample.env (Sample.tok true)
              "data/xnli.tsv" "xnli.tsv" "xlm-roberta-base" false Sample.nli_fs
              Sample.nli_text Sample.nli_rows ids) as (d & c & H).
  - reflexivity.
  - vm_compute. reflexivity.
  - exact sample_read_nli.
  - exact Hids.
  - compute_done.
  - vm_compute. reflexivity.
  - exists ids, d, c. split; [exact Hids|exact H].
Defined.

Lemma sc_length_and_labels_witness :
  ∃ c fs',
    CorpusSC.init Sample.env "data/xnli.tsv" "xnli.tsv" "xlm-roberta-base" false
      Sample.nli_fs = (Ok c, fs') ∧
    CorpusSC.len c = Ok (length Sample.nli_rows) ∧
    ∀ (i : nat) (r : Row), Sample.nli_rows !! i = Some r →
      ∃ item z,
        CorpusSC.getitem c (Z.of_nat i) = Ok item ∧
        item !! "label" = Some (T0 z) ∧
        z ∈ [0; 1; 2] ∧
        ((label r = "contradiction" ∧ z = 0) ∨ (label r = "entailment" ∧ z = 1) ∨
         (label r = "neutral" ∧ z = 2)).
Proof.
  apply (sc_length_and_labels Sample.env (Sample.tok true)
           "data/xnli.tsv" "xnli.tsv" "xlm-roberta-base" false Sample.nli_fs
           Sample.nli_text Sample.nli_rows).
  - reflexivity.
  - vm_compute. reflexivity.
  - exact sample_read_nli.
  - discriminate.
  - compute_done.
  - apply sc_cache_agrees_None. vm_compute. reflexivity.
Defined.

Lemma sc_unknown_label_witness :
  ∃ k fs',
    CorpusSC.init Sample.env "data/xnli.tsv" "xnli.tsv" "xlm-roberta-base" false
      Sample.nli_bad_fs = (Raise (KeyError k), fs') ∧
    k ∈ (label <$> Sample.nli_bad_rows) ∧
    (k ∉ ["contradiction"; "entailment"; "neutral"]) ∧
    fs' = Sample.nli_bad_fs ∧
    fs' !! CorpusSC.cached_data_file (Sample.tok true) "data/xnli.tsv" = None.
Proof.
  apply (sc_unknown_label_raises Sample.env (Sample.tok true)
           "data/xnli.tsv" "xnli.tsv" "xlm-roberta-base" false Sample.nli_bad_fs
           Sample.nli_bad_text Sample.nli_bad_rows).
  - reflexivity.
  - vm_compute. reflexivity.
  - exact sample_read_nli_bad.
  - vm_compute. reflexivity.
  - compute_done.
Defined.

Lemma qa_length_and_items_witness :
  ∃ c fs' D (n : nat),
    CorpusQA.init Sample.env "data/train.json" false "xlm-roberta-base" false
      Sample.qa_fs = (Ok c, fs') ∧
    CorpusQA.max_seq_len c = 384%nat ∧
    CorpusQA.dataset c = ODataset D ∧
    Forall (λ t, size0 t = Ok n) D ∧
    CorpusQA.len c = Ok n ∧
    ∀ id : Z, - Z.of_nat n ≤ id < Z.of_nat n →
      ∃ item a b t st en,
        CorpusQA.getitem c id = Ok item ∧
        dom item = qa_keys ∧
        item !! "input_ids" = Some (ITensor a) ∧
        item !! "attention_mask" = Some (ITensor b) ∧
        item !! "token_type_ids" = Some (ITensor t) ∧
        item !! "answer_start" = Some (ITensor st) ∧
        item !! "answer_end" = Some (ITensor en) ∧
        is_seq 384 a ∧ is_seq 384 b ∧ is_seq 384 t ∧
        is_scalar st ∧ is_scalar en.
Proof.
  apply (qa_length_and_items Sample.env (Sample.tok false) "data/train.json" false
           "xlm-roberta-base" false Sample.qa_fs Sample.qa_text (Sample.qa_examples false)).
  - reflexivity.
  - apply sample_converts_to_length, sample_tok_truncates.
  - vm_compute. reflexivity.
  - exact (sample_read_qa false).
  - apply qa_cache_agrees_None. vm_compute. reflexivity.
Defined.

Lemma sc_items_padded_witness :
  ∃ c fs' (L : nat),
    CorpusSC.init Sample.env "data/xnli.tsv" "xnli.tsv" "xlm-roberta-base" false
      Sample.nli_fs = (Ok c, fs') ∧
    (L ≤ 128)%nat ∧
    (∀ r, r ∈ Sample.nli_rows →
       (length (enc_ids (tok_encode (Sample.tok true) 128 (premise r) (hypothesis r)))
        ≤ L)%nat) ∧
    (∃ r, r ∈ Sample.nli_rows ∧
          length (enc_ids (tok_encode (Sample.tok true) 128 (premise r) (hypothesis r)))
          = L) ∧
    ∀ id : Z, - Z.of_nat (length Sample.nli_rows) ≤ id < Z.of_nat (length Sample.nli_rows) →
      ∃ r item,
        py_index Sample.nli_rows id = Ok r ∧
        CorpusSC.getitem c id = Ok item ∧
        sc_item_has_width L item ∧
        item !! "input_ids" =
          Some (T1 (pad (tok_padding_side (Sample.tok true)) (tok_pad_id (Sample.tok true)) L
                      (enc_ids (tok_encode (Sample.tok true) 128 (premise r)
                                  (hypothesis r))))).
Proof.
  apply (sc_items_padded_to_longest Sample.env (Sample.tok true)
           "data/xnli.tsv" "xnli.tsv" "xlm-roberta-base" false Sample.nli_fs
           Sample.nli_text Sample.nli_rows).
  - reflexivity.
  - vm_compute. reflexivity.
  - exact sample_read_nli.
  - discriminate.
  - compute_done.
  - apply sample_tok_truncates.
  - apply sc_cache_agrees_None. vm_compute. reflexivity.
Defined.

Lemma cache_files_written_witness :
  (∃ c fs' d,
     CorpusQA.init Sample.env "data/train.json" false "xlm-roberta-base" false
       Sample.qa_fs = (Ok c, fs') ∧
     fs' = <[CorpusQA.cached_features_file (Sample.tok false) "data/train.json" :=
               TorchFile d]> Sample.qa_fs ∧
     dom d = qa_bundle_keys ∧
     d !! "features" = Some (CorpusQA.features c) ∧
     d !! "dataset" = Some (CorpusQA.dataset c) ∧
     d !! "examples" = Some (CorpusQA.examples c)) ∧
  CorpusQA.cached_features_file (Sample.tok false) ("data" +:+ "/" +:+ "train.json") =
    "data" +:+ "/" +:+ "cached_" +:+ "XLMRobertaTokenizer" +:+ "_" +:+ "train.json" ∧
  (∃ c fs',
     CorpusSC.init Sample.env "data/xnli.tsv" "xnli.tsv" "xlm-roberta-base" false
       Sample.nli_fs = (Ok c, fs') ∧
     fs' = <["data/xnli.tsv" +:+ "_" +:+ "XLMRobertaTokenizerFast" +:+ ".pickle" :=
               Pickle (CorpusSC.data c)]> Sample.nli_fs ∧
     dom (CorpusSC.data c) = sc_keys).
Proof.
  destruct cache_files_written as (Hqa & Hpath & Hsc).
  split; [|split].
  - destruct (sample_qa_run false) as (c & fs' & Hrun).
    destruct (Hqa Sample.env (Sample.tok false) "data/train.json" false
                "xlm-roberta-base" false Sample.qa_fs fs' c) as (d & Hd).
    + reflexivity.
    + vm_compute. reflexivity.
    + exact Hrun.
    + exists c, fs', d. split; [exact Hrun|exact Hd].
  - apply (Hpath (Sample.tok false) "data" "train.json").
    + reflexivity.
    + discriminate.
    + reflexivity.
  - destruct sample_sc_run as (c & fs' & Hrun). exists c, fs'.
    split; [exact Hrun|].
    apply (Hsc Sample.env (Sample.tok true) "data/xnli.tsv" "xnli.tsv"
             "xlm-roberta-base" false Sample.nli_fs fs' c).
    + reflexivity.
    + vm_compute. reflexivity.
    + exact Hrun.
Defined.



Lemma empty_source_witness :
  (∃ e,
     CorpusSC.init Sample.env "data/xnli.tsv" "xnli.tsv" "xlm-roberta-base" false
       Sample.nli_empty_fs = (Raise e, Sample.nli_empty_fs) ∧
     e = (if tok_fast (Sample.tok true) then IndexError else ValueError) ∧
     Sample.nli_empty_fs !! CorpusSC.cached_data_file (Sample.tok true) "data/xnli.tsv"
       = None) ∧
  (∃ c fs',
     CorpusQA.init Sample.env "data/train.json" true "xlm-roberta-base" false
       Sample.qa_empty_fs = (Ok c, fs') ∧
     CorpusQA.len c = Ok 0%nat ∧
     CorpusQA.getitem c 0 = Raise IndexError).
Proof.
  destruct empty_source_behaviour as (Hsc & Hqa). split.
  - apply (Hsc Sample.env (Sample.tok true) "data/xnli.tsv" "xnli.tsv"
             "xlm-roberta-base" false Sample.nli_empty_fs "").
    + reflexivity.
    + vm_compute. reflexivity.
    + vm_compute. reflexivity.
    + vm_compute. reflexivity.
  - apply (Hqa Sample.env (Sample.tok false) "data/train.json" true
             "xlm-roberta-base" false Sample.qa_empty_fs "").
    + reflexivity.
    + vm_compute. reflexivity.
    + vm_compute. reflexivity.
    + vm_compute. reflexivity.
Defined.

Lemma qa_cache_ignores_evaluate_witness :
  ∃ c1 fs1 c2,
    CorpusQA.init Sample.env "data/train.json" false "xlm-roberta-base" false
      Sample.qa_fs = (Ok c1, fs1) ∧
    CorpusQA.init Sample.env "data/train.json" true "xlm-roberta-base" false
      fs1 = (Ok c2, fs1) ∧
    CorpusQA.features c2 = CorpusQA.features c1 ∧
    CorpusQA.dataset c2 = CorpusQA.dataset c1 ∧
    CorpusQA.examples c2 = CorpusQA.examples c1.
Proof.
  destruct (sample_qa_run false) as (c1 & fs1 & Hrun).
  destruct (qa_cache_ignores_evaluate Sample.env (Sample.tok false) "data/train.json"
              "xlm-roberta-base" false Sample.qa_fs fs1 false true c1)
    as (_ & _ & _ & c2 & H2 & Hf & Hd & Hx & _).
  - reflexivity.
  - vm_compute. reflexivity.
  - exact Hrun.
  - by exists c1, fs1, c2.
Defined.

(** * Further properties of the constructors *)

(** ** Every way a construction can end *)

(** A successful [CorpusSC] construction either loaded the pickle that
    was there or preprocessed the source and wrote the pickle. *)
Lemma sc_init_Ok_inv (E : Env) (path file model_name : string)
    (local_files_only : bool) (fs fs' : FS) (c : CorpusSC.t) :
  CorpusSC.init E path file model_name local_files_only fs = (Ok c, fs') →
  ∃ tok,
    from_pretrained E model_name true local_files_only = Ok tok ∧
    ((fs !! CorpusSC.cached_data_file tok path = Some (Pickle (CorpusSC.data c)) ∧
      c = sc_object tok (CorpusSC.data c) ∧ fs' = fs) ∨
     (fs !! CorpusSC.cached_data_file tok path = None ∧
      ∃ ids labels,
        c = sc_object tok (sc_dataset ids labels) ∧
        fs' = <[CorpusSC.cached_data_file tok path := Pickle (sc_dataset ids labels)]> fs)).
Proof.
  intros Hinit.
  destruct (from_pretrained E model_name true local_files_only) as [tok|e] eqn:Htok.
  2: { unfold CorpusSC.init, bind, lift in Hinit. by rewrite Htok in Hinit. }
  exists tok. split; [done|].
  destruct (fs !! CorpusSC.cached_data_file tok path) as [f|] eqn:Hc.
  - left. destruct f as [s|d|d].
    + unfold CorpusSC.init, bind, lift, os_path_exists, pickle_load in Hinit.
      rewrite Htok in Hinit. fold (CorpusSC.cached_data_file tok path) in Hinit.
      rewrite Hc in Hinit. rewrite bool_decide_eq_true_2 in Hinit by (by eexists).
      by rewrite Hc in Hinit.
    + rewrite (sc_init_hit E tok path file model_name local_files_only fs Htok d Hc)
        in Hinit. by injection Hinit as <- <-.
    + unfold CorpusSC.init, bind, lift, os_path_exists, pickle_load in Hinit.
      rewrite Htok in Hinit. fold (CorpusSC.cached_data_file tok path) in Hinit.
      rewrite Hc in Hinit. rewrite bool_decide_eq_true_2 in Hinit by (by eexists).
      by rewrite Hc in Hinit.
  - right. split; [done|].
    by apply (sc_init_miss_inv E tok path file model_name local_files_only fs c fs').
Qed.

(** X1.  A [CorpusSC] construction that raises leaves the file system as
    it was: no partial or empty cache file is left behind. *)
Theorem sc_failure_leaves_files (E : Env) (path file model_name : string)
    (local_files_only : bool) (fs fs' : FS) (e : Exn) :
  CorpusSC.init E path file model_name local_files_only fs = (Raise e, fs') →
  fs' = fs.
Proof.
  unfold CorpusSC.init, bind, lift, os_path_exists, pickle_load.
  destruct (from_pretrained E model_name true local_files_only) as [tok|e0];
    [|by intros [= _ <-]].
  fold (CorpusSC.cached_data_file tok path).
  destruct (fs !! CorpusSC.cached_data_file tok path) as [f|] eqn:Hc.
  - rewrite bool_decide_eq_true_2 by (by eexists). rewrite Hc.
    destruct f; simpl; by intros [= _ <-].
  - rewrite bool_decide_eq_false_2 by (by intros [? ?]).
    pose proof (sc_preprocess_fs E tok path file fs 128
                  {["contradiction" := 0; "entailment" := 1; "neutral" := 2]}) as Hfs.
    destruct (CorpusSC.preprocess _ _ _ _ _ _ _) as [[d|e0] fs0]; simpl in *.
    + done.
    + intros [= _ <-]. done.
Qed.

(** A successful [CorpusQA] construction either loaded the three entries
    of the dictionary that was there or converted the source and saved
    the dictionary. *)
Lemma qa_init_Ok_inv (E : Env) (path : string) (evaluate : bool) (model_name : string)
    (local_files_only : bool) (fs fs' : FS) (c : CorpusQA.t) :
  CorpusQA.init E path evaluate model_name local_files_only fs = (Ok c, fs') →
  ∃ tok,
    from_pretrained E model_name false local_files_only = Ok tok ∧
    ((∃ d, fs !! CorpusQA.cached_features_file tok path = Some (TorchFile d) ∧
           d !! "features" = Some (CorpusQA.features c) ∧
           d !! "dataset" = Some (CorpusQA.dataset c) ∧
           d !! "examples" = Some (CorpusQA.examples c) ∧
           fs' = fs) ∨
     (fs !! CorpusQA.cached_features_file tok path = None ∧
      ∃ s exs,
        fs !! qa_source path = Some (Text s) ∧
        create_examples E evaluate s = Ok exs ∧
        CorpusQA.dataset c = ODataset (qa_tensors E tok evaluate exs) ∧
        CorpusQA.examples c = OExamples exs ∧
        CorpusQA.features c = OFeatures (qa_features E tok evaluate exs) ∧
        fs' = <[CorpusQA.cached_features_file tok path :=
                  TorchFile (qa_bundle (qa_features E tok evaluate exs)
                               (qa_tensors E tok evaluate exs) exs)]> fs)).
Proof.
  intros Hinit.
  destruct (from_pretrained E model_name false local_files_only) as [tok|e] eqn:Htok.
  2: { unfold CorpusQA.init, bind, lift in Hinit. by rewrite Htok in Hinit. }
  exists tok. split; [done|].
  destruct (fs !! CorpusQA.cached_features_file tok path) as [f|] eqn:Hc.
  - left.
    rewrite (qa_init_unfold E tok path model_name local_files_only fs Htok) in Hinit.
    unfold CorpusQA.preprocess, bind, os_path_exists, torch_load, lift, dict_get in Hinit.
    fold (CorpusQA.cached_features_file tok path) in Hinit. rewrite Hc in Hinit.
    rewrite bool_decide_eq_true_2 in Hinit by (by eexists). rewrite Hc in Hinit.
    destruct f as [s|d|d]; try done. exists d. split; [done|].
    destruct (d !! "features") as [f|]; [|done].
    destruct (d !! "dataset") as [ds|]; [|done].
    destruct (d !! "examples") as [x|]; [|done].
    simpl in Hinit. destruct (CorpusQA.columns ds); [|done].
    by injection Hinit as <- <-.
  - right. split; [done|].
    destruct (qa_init_miss_inv E tok path model_name local_files_only fs Htok
                evaluate c fs' Hc Hinit) as (s & exs & data & Hs & Hx & _ & -> & ->).
    by exists s, exs.
Qed.

(** X2.  A [CorpusQA] construction that raises leaves the file system as
    it was.  The only write is the [torch.save] at the end of the miss
    branch, and the column dictionary built after it cannot fail on a
    freshly converted dataset. *)
Theorem qa_failure_leaves_files (E : Env) (path : string) (evaluate : bool)
    (model_name : string) (local_files_only : bool) (fs fs' : FS) (e : Exn) :
  CorpusQA.init E path evaluate model_name local_files_only fs = (Raise e, fs') →
  fs' = fs.
Proof.
  destruct (from_pretrained E model_name false local_files_only) as [tok|e0] eqn:Htok.
  2: { unfold CorpusQA.init, bind, lift. rewrite Htok. by intros [= _ <-]. }
  rewrite (qa_init_unfold E tok path model_name local_files_only fs Htok).
  destruct (fs !! CorpusQA.cached_features_file tok path) as [f|] eqn:Hc.
  - unfold CorpusQA.preprocess, bind, os_path_exists, torch_load, lift, dict_get.
    fold (CorpusQA.cached_features_file tok path). rewrite Hc.
    rewrite bool_decide_eq_true_2 by (by eexists). rewrite Hc.
    destruct f as [s|d|d]; try by intros [= _ <-].
    destruct (d !! "features") as [f|]; [|by intros [= _ <-]].
    destruct (d !! "dataset") as [ds|]; [|by intros [= _ <-]].
    destruct (d !! "examples") as [x|]; [|by intros [= _ <-]].
    simpl. destruct (CorpusQA.columns ds); by intros [= _ <-] || done.
  - rewrite (qa_preprocess_miss E tok path fs evaluate Hc).
    destruct (fs !! qa_source path) as [[s| |]|]; try by intros [= _ <-].
    destruct (create_examples E evaluate s) as [exs|e0]; [|by intros [= _ <-]].
    destruct (qa_columns_fresh E tok evaluate exs) as [data ->]. done.
Qed.

(** X3.  A successful construction of either class never removes or
    changes a file that existed before: the source file and any other
    file are still there with the same content. *)
Theorem construction_keeps_files :
  (∀ (E : Env) (path file model_name : string) (local_files_only : bool)
     (fs fs' : FS) (c : CorpusSC.t),
     CorpusSC.init E path file model_name local_files_only fs = (Ok c, fs') →
     ∀ p f, fs !! p = Some f → fs' !! p = Some f) ∧
  (∀ (E : Env) (path : string) (evaluate : bool) (model_name : string)
     (local_files_only : bool) (fs fs' : FS) (c : CorpusQA.t),
     CorpusQA.init E path evaluate model_name local_files_only fs = (Ok c, fs') →
     ∀ p f, fs !! p = Some f → fs' !! p = Some f).
Proof.
  split.
  - intros E path file model_name lfo fs fs' c Hinit p f Hp.
    destruct (sc_init_Ok_inv E path file model_name lfo fs fs' c Hinit)
      as (tok & _ & [(_ & _ & ->)|(Hc & ids & labels & _ & ->)]); [done|].
    rewrite lookup_insert_ne; [done|]. intros <-. congruence.
  - intros E path evaluate model_name lfo fs fs' c Hinit p f Hp.
    destruct (qa_init_Ok_inv E path evaluate model_name lfo fs fs' c Hinit)
      as (tok & _ & [(d & _ & _ & _ & _ & ->)|(Hc & s & exs & _ & _ & _ & _ & _ & ->)]);
      [done|].
    rewrite lookup_insert_ne; [done|]. intros <-. congruence.
Qed.

(** ** What a cache hit does not look at *)

Lemma string_app_ne (a b : string) : b ≠ "" → a +:+ b ≠ a.
Proof.
  intros Hb. induction a as [|x a IH]; [done|].
  change (String x a +:+ b) with (String x (a +:+ b)). by intros [= ?].
Qed.

(** X4.  When the pickle exists, [CorpusSC] returns its content and never
    opens the source: the result is the same whatever is (or is not) at
    the source path, whatever the reader does and whatever [file] is. *)
Theorem sc_hit_ignores_source (E E' : Env) (tok : Tokenizer)
    (path file file' model_name : string) (local_files_only : bool) (fs : FS)
    (d : gmap string Tensor) (src : option FileObj) :
  from_pretrained E model_name true local_files_only = Ok tok →
  from_pretrained E' model_name true local_files_only = Ok tok →
  fs !! CorpusSC.cached_data_file tok path = Some (Pickle d) →
  ∃ c,
    CorpusSC.data c = d ∧
    CorpusSC.init E path file model_name local_files_only fs = (Ok c, fs) ∧
    CorpusSC.init E' path file' model_name local_files_only (alter_file path src fs) =
      (Ok c, alter_file path src fs).
Proof.
  intros Htok Htok' Hc.
  assert (path ≠ CorpusSC.cached_data_file tok path) as Hne.
  { intros Heq. symmetry in Heq. by apply string_app_ne in Heq. }
  exists (sc_object tok d). split; [done|].
  split; [by apply sc_init_hit|].
  apply sc_init_hit; [done|].
  unfold alter_file. destruct src as [f|].
  - by rewrite lookup_insert_ne.
  - by rewrite lookup_delete_ne.
Qed.

(** X5.  The cache of [CorpusSC] is keyed by the tokenizer's class name
    only, not by the model name: after a construction for one model, a
    construction for another model whose tokenizer has the same class
    name gets the tensors of the first model's tokenizer. *)
Theorem sc_cache_shared_by_class (E : Env) (tokA tokB : Tokenizer)
    (path file modelA modelB : string) (local_files_only : bool)
    (fs fs1 : FS) (cA : CorpusSC.t) :
  from_pretrained E modelA true local_files_only = Ok tokA →
  from_pretrained E modelB true local_files_only = Ok tokB →
  tok_class tokB = tok_class tokA →
  fs !! CorpusSC.cached_data_file tokA path = None →
  CorpusSC.init E path file modelA local_files_only fs = (Ok cA, fs1) →
  ∃ cB,
    CorpusSC.init E path file modelB local_files_only fs1 = (Ok cB, fs1) ∧
    CorpusSC.tokenizer cB = tokB ∧
    CorpusSC.data cB = CorpusSC.data cA.
Proof.
  intros HA HB Hcls Hc Hinit.
  destruct (sc_init_miss_inv E tokA path file modelA local_files_only fs cA fs1
              HA Hc Hinit) as (ids & labels & -> & ->).
  exists (sc_object tokB (sc_dataset ids labels)). split; [|done].
  apply sc_init_hit; [done|].
  unfold CorpusSC.cached_data_file. rewrite Hcls. apply lookup_insert_eq.
Qed.

(** X6.  The same for [CorpusQA]: a second model with a tokenizer of the
    same class name is served the dataset, examples and features
    converted with the first model's tokenizer. *)
Theorem qa_cache_shared_by_class (E : Env) (tokA tokB : Tokenizer)
    (path modelA modelB : string) (local_files_only : bool) (evaluate : bool)
    (fs fs1 : FS) (cA : CorpusQA.t) :
  from_pretrained E modelA false local_files_only = Ok tokA →
  from_pretrained E modelB false local_files_only = Ok tokB →
  tok_class tokB = tok_class tokA →
  fs !! CorpusQA.cached_features_file tokA path = None →
  CorpusQA.init E path evaluate modelA local_files_only fs = (Ok cA, fs1) →
  ∃ cB,
    CorpusQA.init E path evaluate modelB local_files_only fs1 = (Ok cB, fs1) ∧
    CorpusQA.tokenizer cB = tokB ∧
    CorpusQA.model_name cB = modelB ∧
    CorpusQA.dataset cB = CorpusQA.dataset cA ∧
    CorpusQA.examples cB = CorpusQA.examples cA ∧
    CorpusQA.features cB = CorpusQA.features cA ∧
    CorpusQA.data cB = CorpusQA.data cA.
Proof.
  intros HA HB Hcls Hc Hinit.
  destruct (qa_init_miss_inv E tokA path modelA local_files_only fs HA evaluate cA fs1
              Hc Hinit) as (s & exs & data & _ & _ & Hcol & -> & ->).
  exists (qa_object tokB modelB (ODataset (qa_tensors E tokA evaluate exs))
            (OExamples exs) (OFeatures (qa_features E tokA evaluate exs)) data).
  split; [|by repeat split].
  apply (qa_init_hit E tokB path modelB local_files_only _ HB evaluate); [|exact Hcol].
  unfold CorpusQA.cached_features_file. rewrite Hcls. apply lookup_insert_eq.
Qed.

(** X7.  A cache dictionary that lacks an entry makes [CorpusQA] raise
    [KeyError] for the first missing key in the order features,
    dataset, examples, and nothing is written. *)
Theorem qa_hit_missing_key (E : Env) (tok : Tokenizer) (path : string)
    (evaluate : bool) (model_name : string) (local_files_only : bool) (fs : FS)
    (d : gmap string QAObj) :
  from_pretrained E model_name false local_files_only = Ok tok →
  fs !! CorpusQA.cached_features_file tok path = Some (TorchFile d) →
  (d !! "features" = None →
   CorpusQA.init E path evaluate model_name local_files_only fs =
     (Raise (KeyError "features"), fs)) ∧
  (is_Some (d !! "features") → d !! "dataset" = None →
   CorpusQA.init E path evaluate model_name local_files_only fs =
     (Raise (KeyError "dataset"), fs)) ∧
  (is_Some (d !! "features") → is_Some (d !! "dataset") → d !! "examples" = None →
   CorpusQA.init E path evaluate model_name local_files_only fs =
     (Raise (KeyError "examples"), fs)).
Proof.
  intros Htok Hc.
  rewrite (qa_init_unfold E tok path model_name local_files_only fs Htok).
  unfold CorpusQA.preprocess, bind, os_path_exists, torch_load, lift, dict_get.
  fold (CorpusQA.cached_features_file tok path). rewrite Hc.
  rewrite bool_decide_eq_true_2 by (by eexists). rewrite Hc.
  split; [|split].
  - by intros ->.
  - by intros [f ->] ->.
  - by intros [f ->] [ds ->] ->.
Qed.

(** ** Indexing *)

Lemma py_index_out_of_range {A} (l : list A) (i : Z) :
  i < - Z.of_nat (length l) ∨ Z.of_nat (length l) ≤ i →
  py_index l i = Raise IndexError.
Proof. intros Hi. unfold py_index. zcmp; try done; lia. Qed.

Lemma py_index_negative {A} (l : list A) (i : Z) :
  - Z.of_nat (length l) ≤ i < 0 →
  py_index l i = py_index l (i + Z.of_nat (length l)).
Proof. intros Hi. unfold py_index. zcmp; try done; lia. Qed.

(** X8.  Indexing a [CorpusSC] built from a valid file of N >= 1 rows.
    An index outside [-N, N) raises [IndexError]; a negative index in
    range counts from the end; an index in range gives the item of that
    row, whose label is the row's class. *)
Theorem sc_getitem_bounds
    (E : Env) (tok : Tokenizer) (path file model_name : string)
    (local_files_only : bool) (fs : FS) (s : string) (rows : list Row) :
  from_pretrained E model_name true local_files_only = Ok tok →
  fs !! path = Some (Text s) →
  read_csv E s = Ok rows →
  rows ≠ [] →
  Forall (λ r, is_Some (sc_labels !! label r)) rows →
  sc_cache_agrees E tok path file fs →
  ∃ c fs',
    CorpusSC.init E path file model_name local_files_only fs = (Ok c, fs') ∧
    (∀ id, id < - Z.of_nat (length rows) ∨ Z.of_nat (length rows) ≤ id →
           CorpusSC.getitem c id = Raise IndexError) ∧
    (∀ id, - Z.of_nat (length rows) ≤ id < 0 →
           CorpusSC.getitem c id = CorpusSC.getitem c (id + Z.of_nat (length rows))) ∧
    (∀ (i : nat) r, rows !! i = Some r →
           CorpusSC.getitem c (Z.of_nat i) = Ok (sc_item tok 128 rows r)).
Proof.
  intros Htok Hfile Hrows Hne Hknown Hcache.
  destruct (sc_init_valid E tok path file model_name local_files_only fs s rows
              Htok Hfile Hrows Hknown Hne Hcache) as [fs' Hinit].
  exists (sc_object tok (sc_data tok rows)), fs'. split; [done|].
  split; [|split].
  - intros id Hid. by rewrite sc_getitem_data, py_index_out_of_range.
  - intros id Hid. by rewrite !sc_getitem_data, py_index_negative.
  - intros i r Hr. by rewrite sc_getitem_data, (py_index_nat _ _ _ Hr).
Qed.

(** X9.  The label that is reported.  When the rows before some row all
    have known labels and that row has not, the constructor raises
    [KeyError] for the label of that row, the first unknown one. *)
Theorem sc_first_unknown_label
    (E : Env) (tok : Tokenizer) (path file model_name : string)
    (local_files_only : bool) (fs : FS) (s : string)
    (before after : list Row) (r : Row) :
  from_pretrained E model_name true local_files_only = Ok tok →
  fs !! path = Some (Text s) →
  read_csv E s = Ok (before ++ r :: after)%list →
  fs !! CorpusSC.cached_data_file tok path = None →
  Forall (λ r, is_Some (sc_labels !! label r)) before →
  sc_labels !! label r = None →
  CorpusSC.init E path file model_name local_files_only fs =
    (Raise (KeyError (label r)), fs).
Proof.
  intros Htok Hfile Hrows Hcache Hbefore Hr.
  rewrite (sc_init_miss E tok _ _ _ _ _ Htok Hcache).
  rewrite (sc_preprocess_KeyError E tok path file fs 128 sc_labels s
             (before ++ r :: after)%list (label r) Hfile Hrows); [done|].
  clear -Hbefore Hr. induction Hbefore as [|r0 before [z Hz] _ IH]; csimpl.
  - unfold dict_get. by rewrite Hr.
  - unfold dict_get at 1. rewrite Hz. simpl. by rewrite IH.
Qed.

(** ** The column dictionary of CorpusQA *)

Lemma qa_columns_fresh_eq (E : Env) (tok : Tokenizer) (evaluate : bool)
    (exs : list Example) :
  CorpusQA.columns (ODataset (qa_tensors E tok evaluate exs)) =
  Ok (qa_columns evaluate (qa_features E tok evaluate exs)).
Proof.
  rewrite qa_tensors_eq. unfold CorpusQA.columns, obj_slice_col, qa_columns.
  generalize (qa_features E tok evaluate exs). intros l.
  destruct evaluate; simpl; by rewrite !tensor_slice_all_torch_tensor2.
Qed.

(** X10.  The dictionary [data] that [CorpusQA.__init__] builds holds the
    five whole columns of the dataset, and indexing a column at [id]
    gives the field of that name in [__getitem__(id)]. *)
Theorem qa_columns_agree_with_getitem
    (E : Env) (tok : Tokenizer) (path : string) (evaluate : bool)
    (model_name : string) (local_files_only : bool) (fs fs' : FS) (c : CorpusQA.t) :
  from_pretrained E model_name false local_files_only = Ok tok →
  fs !! CorpusQA.cached_features_file tok path = None →
  CorpusQA.init E path evaluate model_name local_files_only fs = (Ok c, fs') →
  dom (CorpusQA.data c) = qa_keys ∧
  ∀ id item, CorpusQA.getitem c id = Ok item →
    ∀ k, k ∈ qa_keys →
      ∃ col t,
        CorpusQA.data c !! k = Some (ITensor col) ∧
        CorpusQA.len c = size0 col ∧
        item !! k = Some (ITensor t) ∧
        tensor_index col id = Ok t.
Proof.
  intros Htok Hc Hinit.
  destruct (qa_init_miss_inv E tok path model_name local_files_only fs Htok evaluate
              c fs' Hc Hinit) as (s & exs & data & _ & _ & Hcol & -> & _).
  rewrite qa_columns_fresh_eq in Hcol. injection Hcol as <-.
  unfold qa_object. cbn [CorpusQA.data]. split.
  { unfold qa_columns, qa_keys. rewrite !dom_insert_L, dom_singleton_L. set_solver. }
  intros id item.
  erewrite (qa_getitem_fresh E tok evaluate exs); [|reflexivity].
  unfold CorpusQA.len. cbn [CorpusQA.dataset]. rewrite qa_len_fresh.
  generalize (qa_features E tok evaluate exs). intros l.
  destruct (py_index l id) as [f|e] eqn:Hf; simpl; [|done].
  intros [= <-] k Hk. pose proof (py_index_Ok_range _ _ _ Hf) as Hrange.
  unfold qa_keys in Hk. rewrite !elem_of_union, !elem_of_singleton in Hk.
  unfold qa_columns, qa_item.
  destruct Hk as [[[[->| ->]| ->]| ->]| ->]; simplify_map_eq.
  - eexists _, _. split; [done|]. rewrite size0_torch_tensor2, length_fmap.
    split; [done|]. split; [done|].
    by rewrite tensor_index_torch_tensor2, py_index_fmap, Hf.
  - eexists _, _. split; [done|]. rewrite size0_torch_tensor2, length_fmap.
    split; [done|]. split; [done|].
    by rewrite tensor_index_torch_tensor2, py_index_fmap, Hf.
  - eexists _, _. split; [done|]. rewrite size0_torch_tensor2, length_fmap.
    split; [done|]. split; [done|].
    by rewrite tensor_index_torch_tensor2, py_index_fmap, Hf.
  - destruct evaluate; eexists _, _; (split; [done|]); simpl;
      rewrite ?length_fmap, ?length_seq; (split; [done|]); (split; [done|]).
    + by rewrite py_index_arange.
    + by rewrite py_index_fmap, Hf.
  - destruct evaluate; eexists _, _; (split; [done|]); simpl;
      rewrite ?length_fmap; (split; [done|]); (split; [done|]);
      by rewrite py_index_fmap, Hf.
Qed.

(** X11.  What [answer_start] and [answer_end] are.  After a construction
    on a miss, an item at an index in range holds, in training mode
    ([evaluate] false), the start and end positions of its feature; in
    evaluation mode it holds under [answer_start] the index of the item
    itself and under [answer_end] the cls index of its feature. *)
Theorem qa_answer_fields_by_mode
    (E : Env) (tok : Tokenizer) (path : string) (evaluate : bool)
    (model_name : string) (local_files_only : bool) (fs fs' : FS) (c : CorpusQA.t) :
  from_pretrained E model_name false local_files_only = Ok tok →
  fs !! CorpusQA.cached_features_file tok path = None →
  CorpusQA.init E path evaluate model_name local_files_only fs = (Ok c, fs') →
  ∃ F : list Feature,
    CorpusQA.features c = OFeatures F ∧
    CorpusQA.len c = Ok (length F) ∧
    ∀ id, - Z.of_nat (length F) ≤ id < Z.of_nat (length F) →
      ∃ f item,
        py_index F id = Ok f ∧
        CorpusQA.getitem c id = Ok item ∧
        item !! "answer_start" =
          Some (ITensor (T0 (if evaluate then py_norm (length F) id
                             else f_start_position f))) ∧
        item !! "answer_end" =
          Some (ITensor (T0 (if evaluate then f_cls_index f else f_end_position f))).
Proof.
  intros Htok Hc Hinit.
  destruct (qa_init_miss_inv E tok path model_name local_files_only fs Htok evaluate
              c fs' Hc Hinit) as (s & exs & data & _ & _ & _ & -> & _).
  exists (qa_features E tok evaluate exs). split; [done|].
  split. { unfold CorpusQA.len. cbn [CorpusQA.dataset qa_object]. apply qa_len_fresh. }
  intros id Hid. destruct (py_index_in_range _ id Hid) as (f & Hf & _).
  exists f, (qa_item evaluate (length (qa_features E tok evaluate exs)) id f).
  split; [done|].
  split. { erewrite (qa_getitem_fresh E tok evaluate exs); [|reflexivity]. by rewrite Hf. }
  apply qa_item_lookups.
Qed.

(** ** The file the processor opens *)

Lemma split_components_no_sep (s : string) :
  Forall (λ w, has_sep w = false) (split "/" s).
Proof.
  induction s as [|c s IH]; simpl; [by repeat constructor|].
  destruct (Ascii.eqb c "/") eqn:Hc; [by constructor|].
  pose proof (split_nonempty "/" s) as Hne.
  destruct (split "/" s) as [|w ws]; [done|].
  inversion_clear IH as [|? ? Hw Hws]. constructor; [|done]. simpl. by rewrite Hc.
Qed.

Lemma string_app_assoc (a b c : string) : (a +:+ b) +:+ c = a +:+ b +:+ c.
Proof.
  induction a as [|x a IH]; [done|].
  change (String x ((a +:+ b) +:+ c) = String x (a +:+ b +:+ c)). by rewrite IH.
Qed.

Lemma join_snoc (sep : string) (l : list string) (x : string) :
  l ≠ [] → join sep (l ++ [x])%list = join sep l +:+ sep +:+ x.
Proof.
  induction l as [|y l IH]; [done|]. intros _.
  destruct l as [|z l]; [done|].
  change (join sep ((y :: z :: l) ++ [x])%list)
    with (y +:+ sep +:+ join sep ((z :: l) ++ [x])%list).
  rewrite IH by done.
  change (join sep (y :: z :: l)) with (y +:+ sep +:+ join sep (z :: l)).
  by rewrite !string_app_assoc.
Qed.

Lemma no_sep_startswith (s : string) : has_sep s = false → startswith_sep s = false.
Proof. destruct s as [|c s]; simpl; [done|]. by intros [? _]%orb_false_iff. Qed.

(** X12.  Which file is read on a miss.  [preprocess] splits the path at
    its slashes and the processor joins directory and file name again.
    The result is the path that was given when it has no slash, and
    when its directory part is not empty and does not end in a slash;
    for a file directly under the root, ["/name"], it is the relative
    path ["name"]. *)
Theorem qa_source_of_path :
  (∀ path, has_sep path = false → qa_source path = path) ∧
  (∀ path,
     let dir := join "/" (removelast (split "/" path)) in
     dir ≠ "" → endswith_sep dir = false → qa_source path = path) ∧
  (∀ name, has_sep name = false → qa_source ("/" +:+ name) = name).
Proof.
  split; [|split].
  - intros path Hp. unfold qa_source. rewrite split_no_sep by done. simpl.
    apply os_path_join_empty. by apply no_sep_startswith.
  - intros path dir Hdir Hend. unfold qa_source. fold dir.
    pose proof (split_nonempty "/" path) as Hne.
    pose proof (split_components_no_sep path) as Hall.
    pose proof (app_removelast_last "" Hne) as Hsplit.
    assert (removelast (split "/" path) ≠ []) as Hl.
    { intros Hl. apply Hdir. unfold dir. by rewrite Hl. }
    assert (has_sep (List.last (split "/" path) "") = false) as Hx.
    { rewrite Hsplit in Hall. apply Forall_app in Hall as [_ Hall].
      by inversion_clear Hall. }
    rewrite os_path_join_plain by auto using no_sep_startswith.
    assert (path = join "/" (removelast (split "/" path) ++
                              [List.last (split "/" path) ""])%list) as Hp.
    { rewrite <-Hsplit. symmetry. apply join_split. }
    rewrite join_snoc in Hp by done. symmetry. exact Hp.
  - intros name Hn. unfold qa_source.
    change ("/" +:+ name) with ("" +:+ "/" +:+ name).
    rewrite split_app_sep by done. simpl.
    apply os_path_join_empty. by apply no_sep_startswith.
Qed.

(** ** Concrete runs for the further properties *)

Lemma sample_sc_bad_run :
  CorpusSC.init Sample.env "data/xnli.tsv" "xnli.tsv" "xlm-roberta-base" false
    Sample.nli_bad_fs = (Raise (KeyError "unknown"), Sample.nli_bad_fs).
Proof.
  rewrite (sc_init_miss Sample.env (Sample.tok true) _ _ _ _ _ eq_refl)
    by (vm_compute; reflexivity).
  rewrite (sc_preprocess_KeyError Sample.env (Sample.tok true) "data/xnli.tsv" "xnli.tsv"
             Sample.nli_bad_fs 128 sc_labels Sample.nli_bad_text Sample.nli_bad_rows
             "unknown"); [done| | |]; vm_compute; reflexivity.
Qed.

Lemma sample_qa_missing_run :
  CorpusQA.init Sample.env "data/dev.json" true "xlm-roberta-base" false Sample.qa_fs =
  (Raise (FileNotFoundError "data/dev.json"), Sample.qa_fs).
Proof.
  rewrite (qa_init_unfold Sample.env (Sample.tok false) _ _ _ _ eq_refl).
  rewrite (qa_preprocess_miss Sample.env (Sample.tok false)) by (vm_compute; reflexivity).
  assert (qa_source "data/dev.json" = "data/dev.json") as -> by reflexivity.
  assert (Sample.qa_fs !! "data/dev.json" = None) as -> by (vm_compute; reflexivity).
  done.
Qed.

Lemma sc_failure_leaves_files_witness :
  (CorpusSC.init Sample.env "data/xnli.tsv" "xnli.tsv" "xlm-roberta-base" false
     Sample.nli_bad_fs).2 = Sample.nli_bad_fs.
Proof.
  apply (sc_failure_leaves_files Sample.env "data/xnli.tsv" "xnli.tsv" "xlm-roberta-base"
           false Sample.nli_bad_fs _ (KeyError "unknown")).
  rewrite sample_sc_bad_run. reflexivity.
Defined.

Lemma qa_failure_leaves_files_witness :
  (CorpusQA.init Sample.env "data/dev.json" true "xlm-roberta-base" false
     Sample.qa_fs).2 = Sample.qa_fs.
Proof.
  apply (qa_failure_leaves_files Sample.env "data/dev.json" true "xlm-roberta-base"
           false Sample.qa_fs _ (FileNotFoundError "data/dev.json")).
  rewrite sample_qa_missing_run. reflexivity.
Defined.

Lemma construction_keeps_files_witness :
  (∃ c fs',
     CorpusSC.init Sample.env "data/xnli.tsv" "xnli.tsv" "xlm-roberta-base" false
       Sample.nli_fs = (Ok c, fs') ∧
     fs' !! "data/xnli.tsv" = Some (Text Sample.nli_text)) ∧
  (∃ c fs',
     CorpusQA.init Sample.env "data/train.json" false "xlm-roberta-base" false
       Sample.qa_fs = (Ok c, fs') ∧
     fs' !! "data/train.json" = Some (Text Sample.qa_text)).
Proof.
  destruct construction_keeps_files as [Hsc Hqa]. split.
  - destruct sample_sc_run as (c & fs' & Hrun). exists c, fs'. split; [exact Hrun|].
    apply (Hsc _ _ _ _ _ _ _ _ Hrun). vm_compute. reflexivity.
  - destruct (sample_qa_run false) as (c & fs' & Hrun). exists c, fs'.
    split; [exact Hrun|].
    apply (Hqa _ _ _ _ _ _ _ _ Hrun). vm_compute. reflexivity.
Defined.

Lemma sc_hit_ignores_source_witness :
  ∃ c,
    CorpusSC.data c = ∅ ∧
    CorpusSC.init Sample.env "data/xnli.tsv" "a" "xlm-roberta-base" false
      {[ "data/xnli.tsv_XLMRobertaTokenizerFast.pickle" := Pickle ∅ ]} =
      (Ok c, {[ "data/xnli.tsv_XLMRobertaTokenizerFast.pickle" := Pickle ∅ ]}) ∧
    CorpusSC.init Sample.env "data/xnli.tsv" "b" "xlm-roberta-base" false
      (alter_file "data/xnli.tsv" (Some (Text Sample.nli_bad_text))
         {[ "data/xnli.tsv_XLMRobertaTokenizerFast.pickle" := Pickle ∅ ]}) =
      (Ok c, alter_file "data/xnli.tsv" (Some (Text Sample.nli_bad_text))
               {[ "data/xnli.tsv_XLMRobertaTokenizerFast.pickle" := Pickle ∅ ]}).
Proof.
  apply (sc_hit_ignores_source Sample.env Sample.env (Sample.tok true)).
  - reflexivity.
  - reflexivity.
  - vm_compute. reflexivity.
Defined.

Lemma sc_cache_shared_by_class_witness :
  ∃ cA fs1 cB,
    CorpusSC.init Sample.env "data/xnli.tsv" "xnli.tsv" "xlm-roberta-base" false
      Sample.nli_fs = (Ok cA, fs1) ∧
    CorpusSC.init Sample.env "data/xnli.tsv" "xnli.tsv" "xlm-roberta-large" false
      fs1 = (Ok cB, fs1) ∧
    CorpusSC.data cB = CorpusSC.data cA.
Proof.
  destruct sample_sc_run as (cA & fs1 & Hrun).
  destruct (sc_cache_shared_by_class Sample.env (Sample.tok true) (Sample.tok true)
              "data/xnli.tsv" "xnli.tsv" "xlm-roberta-base" "xlm-roberta-large" false
              Sample.nli_fs fs1 cA) as (cB & HB & _ & Hdata).
  - reflexivity.
  - reflexivity.
  - reflexivity.
  - vm_compute. reflexivity.
  - exact Hrun.
  - by exists cA, fs1, cB.
Defined.

Lemma qa_cache_shared_by_class_witness :
  ∃ cA fs1 cB,
    CorpusQA.init Sample.env "data/train.json" false "xlm-roberta-base" false
      Sample.qa_fs = (Ok cA, fs1) ∧
    CorpusQA.init Sample.env "data/train.json" false "xlm-roberta-large" false
      fs1 = (Ok cB, fs1) ∧
    CorpusQA.dataset cB = CorpusQA.dataset cA.
Proof.
  destruct (sample_qa_run false) as (cA & fs1 & Hrun).
  destruct (qa_cache_shared_by_class Sample.env (Sample.tok false) (Sample.tok false)
              "data/train.json" "xlm-roberta-base" "xlm-roberta-large" false false
              Sample.qa_fs fs1 cA) as (cB & HB & _ & _ & Hds & _).
  - reflexivity.
  - reflexivity.
  - reflexivity.
  - vm_compute. reflexivity.
  - exact Hrun.
  - by exists cA, fs1, cB.
Defined.

Lemma qa_hit_missing_key_witness :
  CorpusQA.init Sample.env "data/train.json" false "xlm-roberta-base" false
    {[ "data/cached_XLMRobertaTokenizer_train.json" := TorchFile ∅ ]} =
  (Raise (KeyError "features"),
   {[ "data/cached_XLMRobertaTokenizer_train.json" := TorchFile ∅ ]}).
Proof.
  apply (qa_hit_missing_key Sample.env (Sample.tok false) "data/train.json" false
           "xlm-roberta-base" false
           {[ "data/cached_XLMRobertaTokenizer_train.json" := TorchFile ∅ ]} ∅).
  - reflexivity.
  - vm_compute. reflexivity.
  - reflexivity.
Defined.

Lemma sc_getitem_bounds_witness :
  ∃ c fs',
    CorpusSC.init Sample.env "data/xnli.tsv" "xnli.tsv" "xlm-roberta-base" false
      Sample.nli_fs = (Ok c, fs') ∧
    (∀ id, id < - Z.of_nat (length Sample.nli_rows) ∨
           Z.of_nat (length Sample.nli_rows) ≤ id →
           CorpusSC.getitem c id = Raise IndexError) ∧
    (∀ id, - Z.of_nat (length Sample.nli_rows) ≤ id < 0 →
           CorpusSC.getitem c id =
           CorpusSC.getitem c (id + Z.of_nat (length Sample.nli_rows))) ∧
    (∀ (i : nat) r, Sample.nli_rows !! i = Some r →
           CorpusSC.getitem c (Z.of_nat i) =
           Ok (sc_item (Sample.tok true) 128 Sample.nli_rows r)).
Proof.
  apply (sc_getitem_bounds Sample.env (Sample.tok true)
           "data/xnli.tsv" "xnli.tsv" "xlm-roberta-base" false Sample.nli_fs
           Sample.nli_text Sample.nli_rows).
  - reflexivity.
  - vm_compute. reflexivity.
  - exact sample_read_nli.
  - discriminate.
  - compute_done.
  - apply sc_cache_agrees_None. vm_compute. reflexivity.
Defined.

Lemma sc_first_unknown_label_witness :
  CorpusSC.init Sample.env "data/xnli.tsv" "xnli.tsv" "xlm-roberta-base" false
    Sample.nli_bad_fs = (Raise (KeyError "unknown"), Sample.nli_bad_fs).
Proof.
  apply (sc_first_unknown_label Sample.env (Sample.tok true)
           "data/xnli.tsv" "xnli.tsv" "xlm-roberta-base" false Sample.nli_bad_fs
           Sample.nli_bad_text
           [ {| premise := "A man is eating."; hypothesis := "A man is eating food.";
                label := "entailment" |} ]
           []
           {| premise := "A dog runs."; hypothesis := "A cat sleeps.";
              label := "unknown" |}).
  - reflexivity.
  - vm_compute. reflexivity.
  - exact sample_read_nli_bad.
  - vm_compute. reflexivity.
  - compute_done.
  - vm_compute. reflexivity.
Defined.

Lemma qa_columns_agree_witness :
  ∃ c fs',
    CorpusQA.init Sample.env "data/train.json" false "xlm-roberta-base" false
      Sample.qa_fs = (Ok c, fs') ∧
    dom (CorpusQA.data c) = qa_keys.
Proof.
  destruct (sample_qa_run false) as (c & fs' & Hrun). exists c, fs'.
  split; [exact Hrun|].
  apply (qa_columns_agree_with_getitem Sample.env (Sample.tok false) "data/train.json"
           false "xlm-roberta-base" false Sample.qa_fs fs' c).
  - reflexivity.
  - vm_compute. reflexivity.
  - exact Hrun.
Defined.

Lemma qa_answer_fields_witness :
  ∃ c fs' F,
    CorpusQA.init Sample.env "data/train.json" true "xlm-roberta-base" false
      Sample.qa_fs = (Ok c, fs') ∧
    CorpusQA.features c = OFeatures F ∧
    CorpusQA.len c = Ok (length F).
Proof.
  destruct (sample_qa_run true) as (c & fs' & Hrun).
  destruct (qa_answer_fields_by_mode Sample.env (Sample.tok false) "data/train.json"
              true "xlm-roberta-base" false Sample.qa_fs fs' c) as (F & HF & Hlen & _).
  - reflexivity.
  - vm_compute. reflexivity.
  - exact Hrun.
  - by exists c, fs', F.
Defined.

Lemma qa_source_of_path_witness :
  qa_source "train.json" = "train.json" ∧
  qa_source "data/squad/train.json" = "data/squad/train.json" ∧
  qa_source ("/" +:+ "train.json") = "train.json".
Proof.
  destruct qa_source_of_path as (Hbare & Hdir & Hroot).
  split; [|split].
  - apply Hbare. reflexivity.
  - apply Hdir; [discriminate|reflexivity].
  - apply Hroot. reflexivity.
Defined.
